(** * builder-reimage: the retry, poll and selection logic of [builder-reimage.py]

    The script drives a bare-metal provisioning service through a client
    library.  The service, the clock and the [datetime] parsers are outside
    the script: they appear here as an interface ([Client]) and as
    parameters.  The script's own functions are embedded as computations
    that thread the service's state and record, in order, every remote call,
    every sleep and every message they emit. *)

From Stdlib Require Import ZArith Lia Ascii String List Bool.
From stdpp Require Import base option list gmap strings.

Local Open Scope string_scope.
Local Open Scope list_scope.
Local Open Scope Z_scope.

(** ** Strings *)

Module Str.

(** [str.lower()] on ASCII text: the letters A-Z move to a-z, every other
    character stays. *)
Definition lower_ascii (c : ascii) : ascii :=
  let n := nat_of_ascii c in
  if ((65 <=? n)%nat && (n <=? 90)%nat)%bool then ascii_of_nat (n + 32) else c.

Fixpoint lower (s : string) : string :=
  match s with
  | EmptyString => EmptyString
  | String c s' => String (lower_ascii c) (lower s')
  end.

(** Truth value of a string: only the empty string is false. *)
Definition truthy (s : string) : bool :=
  match s with EmptyString => false | String _ _ => true end.

(** [a.lower() == b.lower()] *)
Definition eq_nocase (a b : string) : bool := String.eqb (lower a) (lower b).

End Str.

(** ** Data model *)

(** A [datetime] value.  Two values are ordered by [ticks] when both are
    offset-naive or both offset-aware; Python raises [TypeError] when an
    offset-naive value is compared with an offset-aware one. *)
Record datetime : Type := mkDatetime { ticks : Z; aware : bool }.

(** The value of a duck-typed attribute read with [getattr(m, attr, None)]. *)
Inductive pyval : Type :=
| VNone                      (* the attribute is missing, or is None *)
| VStr (s : string)
| VDatetime (d : datetime)
| VNum (x : Z)               (* a number; [float(x)] succeeds *)
| VOther (truth : bool).     (* any other object; [float] rejects it *)

(** An attribute read with a default: missing, None, or a value. *)
Inductive attr (A : Type) : Type :=
| Missing
| IsNone
| Has (a : A).
Arguments Missing {A}.
Arguments IsNone {A}.
Arguments Has {A} a.

Record Machine : Type := mkMachine {
  hostname : string;
  system_id : string;
  status_name : string;
  distro_series : attr string;
  power_type : string;
  owner_data : gmap string string;
  attrs : gmap string pyval      (* the optional timestamp attributes *)
}.

(** [getattr(m, name, None)] on the optional attributes. *)
Definition getattr (m : Machine) (name : string) : pyval :=
  default VNone (attrs m !! name).

(** A boot resource of the distro catalogue. *)
Record Resource : Type := mkResource {
  res_id : Z;
  res_name : option string;
  res_osystem : option string;
  res_distro_series : option string;
  res_architecture : option string
}.

(** Exceptions the script sees.  All but [SystemExit] and
    [KeyboardInterrupt] derive from [Exception]. *)
Inductive exn : Type :=
| ClientConnectorError (e : string)
| ClientOSError (e : string)
| ClientResponseError (status : Z) (message : string)
| TimeoutError
| ServerDisconnectedError
| TypeError
| OtherException (e : string)
| KeyboardInterrupt
| SystemExit (code : Z).

Definition is_Exception (e : exn) : bool :=
  match e with
  | SystemExit _ | KeyboardInterrupt => false
  | _ => true
  end.

(** The first argument of [deploy_machine]: [main] passes a host name,
    [redeploy_machine] passes the machine object it fetched. *)
Inductive name_arg : Type :=
| ByName (name : string)
| ByObject (m : Machine).

(** Messages, one constructor per format string of the script, carrying the
    interpolated values. *)
Inductive Msg : Type :=
| MsgAttemptFailed (attempt : Z) (e : exn)
| MsgServerError (status : Z) (message : string)
| MsgConnectTimedOut (attempt : Z)
| MsgDisconnected (attempt : Z)
| MsgRetrying
| MsgUnableToConnect
| MsgPleaseCheck
| MsgCheckNetwork
| MsgCheckHost
| MsgCheckService
| MsgListHeader
| MsgListRule
| MsgListRow (m : Machine)
| MsgDetailsHeader
| MsgDetails (m : Machine)
| MsgQueryNotFound (host : string)
| MsgCurrentStatus (host status : string)
| MsgReleasing (host : string)
| MsgReached (host expected : string)
| MsgWaitTimeout (sysid expected : string)
| MsgErrNotFound (who : name_arg)
| MsgInfoAlreadyDeployed (who : name_arg) (m : Machine)
| MsgErrNonDeployable (who : name_arg) (status : string)
| MsgActionDeploying (who : name_arg) (os : option string) (sysid : string)
| MsgDeployTriggered (who : name_arg) (os : option string)
| MsgErrDeployFailed (who : name_arg) (e : exn)
| MsgRedeployed (host os : string)
| MsgLastDeployed (host sysid : string)
| MsgNoDeployed
| MsgDistroHeader
| MsgDistroRule
| MsgDistroRow (id : Z) (os_type release arch : string)
| MsgPleaseSpecify (action : string)
| MsgInterrupted
| MsgError (e : exn).

(** The messages that start with [[ERROR]]. *)
Definition is_error_msg (m : Msg) : bool :=
  match m with
  | MsgErrNotFound _ | MsgErrNonDeployable _ _ | MsgErrDeployFailed _ _ => true
  | _ => false
  end.

(** What a run does, in order. *)
Inductive Event : Type :=
| EConnect (url key : string)
| EList
| EGet (sysid : string)
| ERelease (sysid : string)
| EDeploy (sysid : string) (os : option string)
| EListResources
| ESleep (seconds : Z)
| EPrint (m : Msg)
| EAppend (file : string) (m : Msg).

Definition is_connect (e : Event) : bool :=
  match e with EConnect _ _ => true | _ => false end.
Definition is_sleep (e : Event) : bool :=
  match e with ESleep _ => true | _ => false end.
Definition is_get (e : Event) : bool :=
  match e with EGet _ => true | _ => false end.
Definition is_release (e : Event) : bool :=
  match e with ERelease _ => true | _ => false end.
Definition is_deploy (e : Event) : bool :=
  match e with EDeploy _ _ => true | _ => false end.
Definition is_error_event (e : Event) : bool :=
  match e with EPrint m => is_error_msg m | _ => false end.

(** ** The provisioning client *)

(** The operations the script awaits, over the state [S] of the service and
    the clock.  A call answers with a value or raises.  Clock readings,
    sleeps and timeouts are counted in one unit of time, as integers: the
    script only adds and compares them. *)
Class Client (S : Type) : Type := {
  connect : string -> string -> S -> (exn + unit) * S;
  machines_list : S -> (exn + list Machine) * S;
  machines_get : string -> S -> (exn + Machine) * S;
  machine_release : Machine -> S -> (exn + unit) * S;
  machine_deploy : Machine -> option string -> S -> (exn + unit) * S;
  boot_resources_list : S -> (exn + list Resource) * S;
  sleep : Z -> S -> S;
  time_time : S -> Z * S
}.

(** ** Computations *)

Inductive outcome (A : Type) : Type :=
| Done (a : A)
| Raise (e : exn)
| OutOfFuel.
Arguments Done {A} a.
Arguments Raise {A} e.
Arguments OutOfFuel {A}.

Module Run.
Section Monad.
Context {S : Type}.

Definition M (A : Type) : Type := S -> outcome A * S * list Event.

Definition ret {A} (a : A) : M A := fun s => (Done a, s, []).

Definition bind {A B} (m : M A) (f : A -> M B) : M B :=
  fun s =>
    match m s with
    | (Done a, s1, t1) => let '(r, s2, t2) := f a s1 in (r, s2, t1 ++ t2)
    | (Raise e, s1, t1) => (Raise e, s1, t1)
    | (OutOfFuel, s1, t1) => (OutOfFuel, s1, t1)
    end.

Definition raise {A} (e : exn) : M A := fun s => (Raise e, s, []).

Definition out_of_fuel {A} : M A := fun s => (OutOfFuel, s, []).

Definition emit (e : Event) : M unit := fun s => (Done tt, s, [e]).

(** An awaited call: the event, then the answer or the exception. *)
Definition call {A} (e : Event) (op : S -> (exn + A) * S) : M A :=
  fun s =>
    match op s with
    | (inr a, s1) => (Done a, s1, [e])
    | (inl x, s1) => (Raise x, s1, [e])
    end.

(** [try: m  except <those e with sel e>: h e] *)
Definition try_except {A} (m : M A) (sel : exn -> bool) (h : exn -> M A) : M A :=
  fun s =>
    match m s with
    | (Raise e, s1, t1) =>
        if sel e then let '(r, s2, t2) := h e s1 in (r, s2, t1 ++ t2)
        else (Raise e, s1, t1)
    | r => r
    end.

End Monad.
Arguments M : clear implicits.
End Run.

Import Run.

Declare Scope run_scope.
Delimit Scope run_scope with run.
Notation "x <- m ;; k" := (bind m (fun x => k))
  (at level 100, m at next level, right associativity) : run_scope.
Notation "m ;;; k" := (bind m (fun _ => k))
  (at level 100, right associativity) : run_scope.
Local Open Scope run_scope.

(** ** The script *)

Definition LOG_FILE_DEFAULT : string := "maas_redeploy.log".

(** Command-line arguments after [argparse]. *)
Inductive Action : Type :=
| ActList | ActListDistros | ActQuery | ActStatus
| ActDeploy | ActRedeploy | ActRedeployAll | ActLastDeployed.

Record Args : Type := mkArgs {
  arg_action : Action;
  arg_machine : option string;
  arg_os : option string;
  arg_log_file : option string
}.

(** Truth value of an optional string ([None] and the empty string are false). *)
Definition opt_truthy (o : option string) : bool :=
  match o with Some s => Str.truthy s | None => false end.

(** Truth value of an attribute value: [None], the empty string, zero and
    empty containers are false. *)
Definition py_truthy (v : pyval) : bool :=
  match v with
  | VNone => false
  | VStr s => Str.truthy s
  | VDatetime _ => true
  | VNum x => negb (x =? 0)
  | VOther b => b
  end.

(** [m.hostname == machine_name]: a string equals a string with the same
    characters and never equals a machine object. *)
Definition hostname_is (who : name_arg) (m : Machine) : bool :=
  match who with
  | ByName name => String.eqb (hostname m) name
  | ByObject _ => false
  end.

(** [m.status_name.lower() == "deployed"] *)
Definition is_deployed (m : Machine) : bool :=
  String.eqb (Str.lower (status_name m)) "deployed".

Definition non_deployable : list string := ["failed"; "broken"; "error"; "unknown"].

Definition timestamp_attrs : list string :=
  [ "deployment_started_at"; "deployed_at"; "deployment_finished_at";
    "commissioning_finished_at"; "last_updated"; "updated_at"; "created_at";
    "created" ].

(** *** Sorting the candidates

    [candidates.sort(key=lambda x: x[0], reverse=True)] is a stable sort by
    descending timestamp: entries with equal timestamps keep their order.
    A stable sort is determined by the keys, so an insertion sort computes
    it.  Sorting two or more keys compares across every split of them, hence
    raises [TypeError] as soon as offset-naive and offset-aware timestamps
    are both present. *)
Definition comparable (a b : datetime) : bool := Bool.eqb (aware a) (aware b).

Definition all_comparable (l : list datetime) : bool :=
  match l with
  | [] => true
  | d :: rest => forallb (comparable d) rest
  end.

Fixpoint insert_desc (x : datetime * Machine) (l : list (datetime * Machine))
  : list (datetime * Machine) :=
  match l with
  | [] => [x]
  | y :: l' =>
      if ticks (fst x) <? ticks (fst y) then y :: insert_desc x l' else x :: l
  end.

Definition sort_desc (l : list (datetime * Machine)) : list (datetime * Machine) :=
  foldr insert_desc [] l.

Definition list_sort_reverse (l : list (datetime * Machine))
  : exn + list (datetime * Machine) :=
  if all_comparable (map fst l) then inr (sort_desc l) else inl TypeError.

(** ["/" in s] *)
Fixpoint has_slash (s : string) : bool :=
  match s with
  | EmptyString => false
  | String c s' => orb (Ascii.eqb c "/"%char) (has_slash s')
  end.

(** [name.split("/")] *)
Fixpoint split_slash (s : string) : list string :=
  match s with
  | EmptyString => [EmptyString]
  | String c s' =>
      if Ascii.eqb c "/"%char then EmptyString :: split_slash s'
      else match split_slash s' with
           | [] => [String c EmptyString]
           | p :: ps => String c p :: ps
           end
  end.

Section Script.
Context {W : Type} `{Client W}.

(** [datetime.fromisoformat] and [datetime.fromtimestamp(float(.))]:
    [None] stands for a raised exception. *)
Variable fromisoformat : string -> option datetime.
Variable fromtimestamp : Z -> option datetime.

Definition do_sleep (seconds : Z) : M W unit :=
  fun s => (Done tt, sleep seconds s, [ESleep seconds]).

Definition now : M W Z :=
  fun s => let '(t, s1) := time_time s in (Done t, s1, []).

Definition print (msg : Msg) : M W unit := emit (EPrint msg).

(** [log(msg, log_file)]: print, and append to the file when one is given. *)
Definition log (msg : Msg) (log_file : option string) : M W unit :=
  print msg ;;;
  match log_file with
  | Some f => if Str.truthy f then emit (EAppend f msg) else ret tt
  | None => ret tt
  end.

(** *** connect_maas *)

(** The [except] clauses of [connect_maas]: the message of the clause that
    catches [e], or [None] when no clause does. *)
Definition connect_handler (attempt : Z) (e : exn) : option Msg :=
  match e with
  | ClientConnectorError _ | ClientOSError _ => Some (MsgAttemptFailed attempt e)
  | ClientResponseError st msg => Some (MsgServerError st msg)
  | TimeoutError => Some (MsgConnectTimedOut attempt)
  | ServerDisconnectedError => Some (MsgDisconnected attempt)
  | _ => None
  end.

(** One attempt: the [try] statement of the loop body.  [Some tt] when
    [connect] returned the client, [None] when a clause caught the error. *)
Definition try_connect (attempt : Z) (url key : string) : M W (option unit) :=
  try_except
    (c <- call (EConnect url key) (connect url key) ;; ret (Some c))
    (fun e => match connect_handler attempt e with Some _ => true | None => false end)
    (fun e =>
       match connect_handler attempt e with
       | Some msg => print msg ;;; ret None
       | None => raise e
       end).

(** [if attempt < retries: print(...); await asyncio.sleep(2)] *)
Definition retry_pause (attempt retries : Z) : M W unit :=
  if attempt <? retries then print MsgRetrying ;;; do_sleep 2 else ret tt.

(** The [for attempt in range(1, retries + 1)] loop, [n] iterations left.
    [Some tt] when an attempt returned the client, [None] when the loop
    ran to its end. *)
Fixpoint connect_loop (n : nat) (attempt retries : Z) (url key : string)
  : M W (option unit) :=
  match n with
  | O => ret None
  | S n' =>
      r <- try_connect attempt url key ;;
      match r with
      | Some c => ret (Some c)
      | None =>
          retry_pause attempt retries ;;;
          connect_loop n' (attempt + 1) retries url key
      end
  end.

Definition connect_maas (url key : string) (retries : Z) : M W unit :=
  r <- connect_loop (Z.to_nat retries) 1 retries url key ;;
  match r with
  | Some c => ret c
  | None =>
      print MsgUnableToConnect ;;;
      print MsgPleaseCheck ;;;
      print MsgCheckNetwork ;;;
      print MsgCheckHost ;;;
      print MsgCheckService ;;;
      raise (SystemExit 1)
  end.

(** *** list_machines, query_machine, list_distros, get_status *)

Fixpoint log_each {A} (f : A -> Msg) (l : list A) (log_file : option string)
  : M W unit :=
  match l with
  | [] => ret tt
  | x :: rest => log (f x) log_file ;;; log_each f rest log_file
  end.

Definition list_machines (log_file : option string) : M W (list Machine) :=
  machines <- call EList machines_list ;;
  log MsgListHeader log_file ;;;
  log MsgListRule log_file ;;;
  log_each MsgListRow machines log_file ;;;
  ret machines.

Definition query_machine (host : string) (log_file : option string)
    (quiet : bool) : M W (option Machine) :=
  machines <- call EList machines_list ;;
  match List.find (fun m => String.eqb (hostname m) host) machines with
  | Some m =>
      machine <- call (EGet (system_id m)) (machines_get (system_id m)) ;;
      (if quiet then ret tt
       else log MsgDetailsHeader log_file ;;; log (MsgDetails machine) log_file) ;;;
      ret (Some machine)
  | None =>
      log (MsgQueryNotFound host) log_file ;;;
      ret None
  end.

Definition get_status (host : string) (log_file : option string)
  : M W (option string) :=
  m <- query_machine host log_file true ;;
  match m with
  | Some m =>
      log (MsgCurrentStatus host (status_name m)) log_file ;;;
      ret (Some (status_name m))
  | None => ret None
  end.

(** *** find_last_deployed_machine *)

(** The [try] block on one attribute value: the timestamp, or [None] when
    the block raises. *)
Definition parse_timestamp (val : pyval) : option datetime :=
  match val with
  | VStr s => fromisoformat s
  | VDatetime d => Some d
  | VNum x => fromtimestamp x
  | VOther _ => None
  | VNone => None
  end.

(** The inner [for attr in timestamp_attrs] loop over the names left. *)
Fixpoint extract_timestamp (m : Machine) (names : list string) : option datetime :=
  match names with
  | [] => None
  | a :: rest =>
      let val := getattr m a in
      if negb (py_truthy val) then extract_timestamp m rest
      else match parse_timestamp val with
           | Some ts => Some ts
           | None => extract_timestamp m rest
           end
  end.

(** The outer [for m in machines] loop: the list [candidates]. *)
Fixpoint collect_candidates (machines : list Machine)
  : list (option datetime * Machine) :=
  match machines with
  | [] => []
  | m :: rest =>
      if negb (is_deployed m) then collect_candidates rest
      else (extract_timestamp m timestamp_attrs, m) :: collect_candidates rest
  end.

(** [[c for c in candidates if c[0] is not None]] *)
Definition with_timestamp (cs : list (option datetime * Machine))
  : list (datetime * Machine) :=
  omap (fun c => match fst c with Some ts => Some (ts, snd c) | None => None end) cs.

(** Everything after the listing. *)
Definition select_last_deployed (machines : list Machine) : exn + option Machine :=
  let candidates := with_timestamp (collect_candidates machines) in
  match candidates with
  | _ :: _ =>
      match list_sort_reverse candidates with
      | inr (c :: _) => inr (Some (snd c))
      | inr [] => inl (OtherException "IndexError")
      | inl e => inl e
      end
  | [] => inr (List.find is_deployed machines)
  end.

Definition find_last_deployed_machine : M W (option Machine) :=
  machines <- call EList machines_list ;;
  match select_last_deployed machines with
  | inr r => ret r
  | inl e => raise e
  end.

(** *** release_machine, wait_for_status *)

Definition release_machine (machine : Machine) : M W unit :=
  if is_deployed machine then
    print (MsgReleasing (hostname machine)) ;;;
    call (ERelease (system_id machine)) (machine_release machine)
  else ret tt.

(** The [while time.time() - start < timeout] loop.  The loop need not end
    (a clock that stands still, a status that never matches), so the body
    runs at most [fuel] times; the test itself costs no fuel. *)
Fixpoint wait_loop (fuel : nat) (start : Z) (sysid expected : string)
    (timeout : Z) : M W bool :=
  t <- now ;;
  if t - start <? timeout then
    match fuel with
    | O => out_of_fuel
    | S fuel' =>
        m <- call (EGet sysid) (machines_get sysid) ;;
        if Str.eq_nocase (status_name m) expected then
          print (MsgReached (hostname m) expected) ;;;
          ret true
        else
          do_sleep 10 ;;;
          wait_loop fuel' start sysid expected timeout
    end
  else
    print (MsgWaitTimeout sysid expected) ;;;
    ret false.

Definition wait_for_status (fuel : nat) (sysid expected : string)
    (timeout : Z) : M W bool :=
  start <- now ;;
  wait_loop fuel start sysid expected timeout.

Definition DEFAULT_TIMEOUT : Z := 900.

(** *** deploy_machine *)

Definition deploy_machine (machine_name : name_arg) (os_distro : option string)
    (log_file : option string) : M W unit :=
  try_except
    (machines <- call EList machines_list ;;
     match List.find (hostname_is machine_name) machines with
     | None => log (MsgErrNotFound machine_name) log_file
     | Some machine =>
         let status := Str.lower (status_name machine) in
         if String.eqb status "deployed" then
           log (MsgInfoAlreadyDeployed machine_name machine) log_file
         else if existsb (String.eqb status) non_deployable then
           log (MsgErrNonDeployable machine_name (status_name machine)) log_file
         else
           log (MsgActionDeploying machine_name os_distro (system_id machine))
               log_file ;;;
           call (EDeploy (system_id machine) os_distro)
                (machine_deploy machine os_distro) ;;;
           log (MsgDeployTriggered machine_name os_distro) log_file
     end)
    is_Exception
    (fun e => log (MsgErrDeployFailed machine_name e) log_file).

(** *** redeploy_machine, redeploy_all *)

(** [getattr(machine, "distro_series", None) or "focal"] *)
Definition current_os (machine : Machine) : string :=
  match distro_series machine with
  | Has d => if Str.truthy d then d else "focal"
  | _ => "focal"
  end.

(** [os_release or current_os] *)
Definition os_to_use (os_release : option string) (machine : Machine) : string :=
  match os_release with
  | Some o => if Str.truthy o then o else current_os machine
  | None => current_os machine
  end.

(** The steps of [redeploy_machine] once the machine is fetched and the OS
    label [os] is resolved. *)
Definition redeploy_steps (fuel : nat) (machine : Machine) (os : string)
    (host : string) (log_file : option string) : M W unit :=
  (if is_deployed machine then
     release_machine machine ;;;
     _ <- wait_for_status fuel (system_id machine) "Ready" DEFAULT_TIMEOUT ;;
     ret tt
   else ret tt) ;;;
  deploy_machine (ByObject machine) (Some os) None ;;;
  _ <- wait_for_status fuel (system_id machine) "Deployed" DEFAULT_TIMEOUT ;;
  log (MsgRedeployed host os) log_file.

Definition redeploy_machine (fuel : nat) (host : string)
    (os_release : option string) (log_file : option string) : M W unit :=
  machine <- query_machine host log_file false ;;
  match machine with
  | None => ret tt
  | Some machine =>
      redeploy_steps fuel machine (os_to_use os_release machine) host log_file
  end.

(** [os_release or getattr(m, "distro_series", "focal")] *)
Definition os_for_all (os_release : option string) (m : Machine) : option string :=
  if opt_truthy os_release then os_release
  else match distro_series m with
       | Missing => Some "focal"
       | IsNone => None
       | Has d => Some d
       end.

Fixpoint redeploy_each (fuel : nat) (machines : list Machine)
    (os_release : option string) (log_file : option string) : M W unit :=
  match machines with
  | [] => ret tt
  | m :: rest =>
      redeploy_machine fuel (hostname m) (os_for_all os_release m) log_file ;;;
      redeploy_each fuel rest os_release log_file
  end.

Definition redeploy_all (fuel : nat) (os_release : option string)
    (log_file : option string) : M W unit :=
  machines <- call EList machines_list ;;
  redeploy_each fuel machines os_release log_file.

(** *** list_distros *)

(** The OS type and release shown for one boot resource: the body of the
    loop up to the row.  A resource without the attribute [name] has
    [res_name = None], and likewise for the other attributes.  The split of
    a text always has a first part, so [parts[0]] cannot fail. *)
Definition distro_of (res : Resource) : string * string :=
  let name := default "-" (res_name res) in
  if has_slash name then
    match split_slash name with
    | p0 :: p1 :: _ => (p0, p1)
    | [p0] => (p0, "-")
    | [] => ("-", "-")
    end
  else if opt_truthy (res_osystem res) then (default "-" (res_osystem res), "-")
  else if opt_truthy (res_distro_series res)
       then ("-", default "-" (res_distro_series res))
       else ("-", "-").

Definition list_distros (log_file : option string) : M W unit :=
  resources <- call EListResources boot_resources_list ;;
  log MsgDistroHeader log_file ;;;
  log MsgDistroRule log_file ;;;
  log_each (fun res =>
              MsgDistroRow (res_id res) (fst (distro_of res)) (snd (distro_of res))
                           (default "-" (res_architecture res)))
           resources log_file.

(** *** main and the process *)

Definition main (fuel : nat) (url key : string) (args : Args) : M W unit :=
  connect_maas url key 3 ;;;
  let log_file :=
    Some (if opt_truthy (arg_log_file args)
          then default LOG_FILE_DEFAULT (arg_log_file args)
          else LOG_FILE_DEFAULT) in
  let machine := default "" (arg_machine args) in
  let given := opt_truthy (arg_machine args) in
  match arg_action args with
  | ActList => _ <- list_machines log_file ;; ret tt
  | ActListDistros => list_distros log_file
  | ActQuery =>
      if given then _ <- query_machine machine log_file false ;; ret tt
      else print (MsgPleaseSpecify "query")
  | ActStatus =>
      if given then _ <- get_status machine log_file ;; ret tt
      else print (MsgPleaseSpecify "status")
  | ActDeploy =>
      if given then deploy_machine (ByName machine) (arg_os args) log_file
      else print (MsgPleaseSpecify "deploy")
  | ActRedeploy =>
      if given then redeploy_machine fuel machine (arg_os args) log_file
      else print (MsgPleaseSpecify "redeploy")
  | ActRedeployAll => redeploy_all fuel (arg_os args) log_file
  | ActLastDeployed =>
      m <- find_last_deployed_machine ;;
      match m with
      | Some m => log (MsgLastDeployed (hostname m) (system_id m)) log_file
      | None => log MsgNoDeployed log_file
      end
  end.

(** The [if __name__ == "__main__"] block: the exit status of the process
    ([None] when the run was cut short by the fuel). *)
Definition script (fuel : nat) (url key : string) (args : Args) (w : W)
  : option Z * W * list Event :=
  match main fuel url key args w with
  | (Done _, w1, t) => (Some 0, w1, t)
  | (Raise KeyboardInterrupt, w1, t) => (Some 0, w1, t ++ [EPrint MsgInterrupted])
  | (Raise (SystemExit c), w1, t) => (Some c, w1, t)
  | (Raise e, w1, t) => (Some 0, w1, t ++ [EPrint (MsgError e)])
  | (OutOfFuel, w1, t) => (None, w1, t)
  end.
End Script.

(** ** A simulated service

    A small provisioning service to run the script on: a clock that only
    sleeping advances, a fixed catalogue, and a list of the statuses that
    the coming status fetches will report. *)

Module Sim.

Record World : Type := mkWorld {
  clock : Z;
  down : option exn;         (* when set, every connection attempt raises it *)
  machines : list Machine;   (* what the service lists *)
  polls : list string;       (* statuses the coming fetches report, in order *)
  stuck : bool               (* release and deploy leave the status as it is *)
}.

Definition with_status (st : string) (m : Machine) : Machine :=
  mkMachine (hostname m) (system_id m) st (distro_series m) (power_type m)
            (owner_data m) (attrs m).

Definition set_status (sysid st : string) (w : World) : World :=
  mkWorld (clock w) (down w)
          (map (fun m => if String.eqb (system_id m) sysid then with_status st m else m)
               (machines w))
          (polls w) (stuck w).

Definition sim_connect (url key : string) (w : World) : (exn + unit) * World :=
  match down w with
  | Some e => (inl e, w)
  | None => (inr tt, w)
  end.

Definition sim_list (w : World) : (exn + list Machine) * World :=
  (inr (machines w), w).

Definition sim_get (sysid : string) (w : World) : (exn + Machine) * World :=
  match List.find (fun m => String.eqb (system_id m) sysid) (machines w) with
  | None => (inl (OtherException "No Machine matches the given query."), w)
  | Some m =>
      match polls w with
      | [] => (inr m, w)
      | st :: rest =>
          (inr (with_status st m),
           mkWorld (clock w) (down w) (machines w) rest (stuck w))
      end
  end.

Definition sim_release (m : Machine) (w : World) : (exn + unit) * World :=
  (inr tt, if stuck w then w else set_status (system_id m) "Ready" w).

Definition sim_deploy (m : Machine) (os : option string) (w : World)
  : (exn + unit) * World :=
  (inr tt, if stuck w then w else set_status (system_id m) "Deployed" w).

Definition sim_resources (w : World) : (exn + list Resource) * World :=
  (inr [], w).

Definition sim_sleep (seconds : Z) (w : World) : World :=
  mkWorld (clock w + seconds) (down w) (machines w) (polls w) (stuck w).

Definition sim_time (w : World) : Z * World := (clock w, w).

#[export] Instance client : Client World := {
  connect := sim_connect;
  machines_list := sim_list;
  machines_get := sim_get;
  machine_release := sim_release;
  machine_deploy := sim_deploy;
  boot_resources_list := sim_resources;
  sleep := sim_sleep;
  time_time := sim_time
}.

(** A machine with no optional attribute. *)
Definition machine (host sysid status : string) (distro : attr string) : Machine :=
  mkMachine host sysid status distro "ipmi" ∅ ∅.

(** A machine with the given optional attributes. *)
Definition machine_with (host sysid status : string)
    (extra : list (string * pyval)) : Machine :=
  mkMachine host sysid status (Has "jammy") "ipmi" ∅ (list_to_map extra).

(** A service that is up, with the given machines, at time 0. *)
Definition up (ms : list Machine) : World := mkWorld 0 None ms [] false.

End Sim.

(** ** A model of the timestamp parsers

    The script takes [datetime.fromisoformat] and [datetime.fromtimestamp]
    from Python; the development takes them as parameters.  To run the
    selector on concrete listings, this module reads the forms
    [YYYY-MM-DD], [YYYY-MM-DDTHH:MM:SS] and [YYYY-MM-DDTHH:MM:SS+HH:MM] (any
    character may stand for the [T]) and counts seconds from 1970-01-01,
    the process running in UTC.  Every other text counts as a parse error. *)

Module Iso.

Definition digit (c : ascii) : option Z :=
  let n := nat_of_ascii c in
  if ((48 <=? n)%nat && (n <=? 57)%nat)%bool then Some (Z.of_nat (n - 48)) else None.

Fixpoint number (cs : list ascii) (acc : Z) : option Z :=
  match cs with
  | [] => Some acc
  | c :: rest =>
      match digit c with
      | Some d => number rest (10 * acc + d)
      | None => None
      end
  end.

Definition is_leap (y : Z) : bool :=
  ((y mod 4 =? 0) && (negb (y mod 100 =? 0) || (y mod 400 =? 0)))%bool.

Definition days_in_month (y m : Z) : Z :=
  if m =? 2 then (if is_leap y then 29 else 28)
  else if ((m =? 4) || (m =? 6) || (m =? 9) || (m =? 11))%bool then 30
  else 31.

(** Days from 1970-01-01 to the given civil date. *)
Definition days_from_civil (y m d : Z) : Z :=
  let y' := if m <=? 2 then y - 1 else y in
  let era := y' / 400 in
  let yoe := y' - era * 400 in
  let mp := if 2 <? m then m - 3 else m + 9 in
  let doy := (153 * mp + 2) / 5 + d - 1 in
  let doe := yoe * 365 + yoe / 4 - yoe / 100 + doy in
  era * 146097 + doe - 719468.

Definition date_seconds (y m d : Z) : option Z :=
  if ((1 <=? y) && (1 <=? m) && (m <=? 12) && (1 <=? d)
      && (d <=? days_in_month y m))%bool
  then Some (days_from_civil y m d * 86400)
  else None.

Definition time_seconds (h mi sec : Z) : option Z :=
  if ((h <? 24) && (mi <? 60) && (sec <? 60))%bool
  then Some (h * 3600 + mi * 60 + sec)
  else None.

Definition read_date (cs : list ascii) : option Z :=
  match cs with
  | [y1; y2; y3; y4; dash1; m1; m2; dash2; d1; d2] =>
      if (Ascii.eqb dash1 "-" && Ascii.eqb dash2 "-")%bool then
        y ← number [y1; y2; y3; y4] 0;
        m ← number [m1; m2] 0;
        d ← number [d1; d2] 0;
        date_seconds y m d
      else None
  | _ => None
  end.

Definition read_time (cs : list ascii) : option Z :=
  match cs with
  | [h1; h2; c1; m1; m2; c2; s1; s2] =>
      if (Ascii.eqb c1 ":" && Ascii.eqb c2 ":")%bool then
        h ← number [h1; h2] 0;
        mi ← number [m1; m2] 0;
        sec ← number [s1; s2] 0;
        time_seconds h mi sec
      else None
  | _ => None
  end.

Definition read_offset (cs : list ascii) : option Z :=
  match cs with
  | [sign; h1; h2; c; m1; m2] =>
      if Ascii.eqb c ":" then
        h ← number [h1; h2] 0;
        mi ← number [m1; m2] 0;
        if ((h <? 24) && (mi <? 60))%bool then
          if Ascii.eqb sign "+" then Some (h * 3600 + mi * 60)
          else if Ascii.eqb sign "-" then Some (- (h * 3600 + mi * 60))
          else None
        else None
      else None
  | _ => None
  end.

Definition fromisoformat (s : string) : option datetime :=
  let cs := list_ascii_of_string s in
  d ← read_date (take 10 cs);
  match drop 10 cs with
  | [] => Some (mkDatetime d false)
  | _ :: rest =>
      t ← read_time (take 8 rest);
      match drop 8 rest with
      | [] => Some (mkDatetime (d + t) false)
      | off => o ← read_offset off; Some (mkDatetime (d + t - o) true)
      end
  end.

Definition fromtimestamp (x : Z) : option datetime := Some (mkDatetime x false).

End Iso.

(** ** Reading a run *)

Definition result_of {A W} (r : outcome A * W * list Event) : outcome A := fst (fst r).
Definition world_of {A W} (r : outcome A * W * list Event) : W := snd (fst r).
Definition trace_of {A W} (r : outcome A * W * list Event) : list Event := snd r.

(** The connection attempts and the sleeps of a trace, in order. *)
Definition skeleton (t : list Event) : list Event :=
  List.filter (fun e => orb (is_connect e) (is_sleep e)) t.

(** [n] connection attempts with a pause of two seconds between consecutive
    ones, and none after the last. *)
Fixpoint attempts_with_pauses (url key : string) (n : nat) : list Event :=
  match n with
  | O => []
  | S O => [EConnect url key]
  | S n' => EConnect url key :: ESleep 2 :: attempts_with_pauses url key n'
  end.

(** The failures [connect_maas] retries. *)
Definition transient (e : exn) : bool :=
  match e with
  | ClientConnectorError _ | ClientOSError _ | ClientResponseError _ _
  | TimeoutError | ServerDisconnectedError => true
  | _ => false
  end.

(** The next [n] connection attempts, made two seconds apart, all fail with
    a transient error. *)
Fixpoint attempts_fail {W : Type} `{Client W} (url key : string) (n : nat) (w : W)
  : Prop :=
  match n with
  | O => True
  | S n' =>
      exists e w1,
        transient e = true
        /\ connect url key w = (inl e, w1)
        /\ attempts_fail url key n' (sleep 2 w1)
  end.

(** [n] turns of the loop of [wait_for_status] in which the clock test
    passes, the fetch answers with a status that does not match, and the
    script sleeps: they lead from [w] to [w']. *)
Inductive idle_polls {W : Type} `{Client W} (start timeout : Z)
    (sysid expected : string) : nat -> W -> W -> Prop :=
| idle_none (w : W) : idle_polls start timeout sysid expected O w w
| idle_turn (n : nat) (w w1 w2 w' : W) (t : Z) (m : Machine) :
    time_time w = (t, w1) ->
    t - start < timeout ->
    machines_get sysid w1 = (inr m, w2) ->
    Str.lower (status_name m) <> Str.lower expected ->
    idle_polls start timeout sysid expected n (sleep 10 w2) w' ->
    idle_polls start timeout sysid expected (S n) w w'.

(** The trace of [n] such turns. *)
Fixpoint idle_trace (sysid : string) (n : nat) : list Event :=
  match n with
  | O => []
  | S n' => EGet sysid :: ESleep 10 :: idle_trace sysid n'
  end.

(** What one attribute value is read as, in the words of the
    specification: a missing or empty value is skipped; a text is read as an
    ISO-8601 timestamp, a timestamp is taken as it is, a number is read as
    an epoch; a failed reading gives nothing. *)
Definition reads_as (fromisoformat : string -> option datetime)
    (fromtimestamp : Z -> option datetime) (v : pyval) : option datetime :=
  match v with
  | VNone => None
  | VStr s => if Str.truthy s then fromisoformat s else None
  | VDatetime d => Some d
  | VNum x => if x =? 0 then None else fromtimestamp x
  | VOther _ => None
  end.

(** A deployed machine with the timestamp extracted from it. *)
Definition candidate_of (fromisoformat : string -> option datetime)
    (fromtimestamp : Z -> option datetime) (m : Machine)
  : option (datetime * Machine) :=
  if is_deployed m
  then option_map (fun ts => (ts, m))
         (extract_timestamp fromisoformat fromtimestamp m timestamp_attrs)
  else None.

(** The trace of [log(msg, log_file)]. *)
Definition log_trace (msg : Msg) (log_file : option string) : list Event :=
  EPrint msg ::
  match log_file with
  | Some f => if Str.truthy f then [EAppend f msg] else []
  | None => []
  end.

(** The trace of a successful [query_machine]. *)
Definition query_trace (listed fetched : Machine) (log_file : option string)
  : list Event :=
  [EList; EGet (system_id listed)]
    ++ log_trace MsgDetailsHeader log_file
    ++ log_trace (MsgDetails fetched) log_file.

(** A computation that, from any state, emits no event selected by [P]. *)
Definition silent {W A : Type} (P : Event -> bool) (m : M W A) : Prop :=
  forall w : W, Forall (fun e => P e = false) (trace_of (m w)).

(** The OS label of a redeploy request in the words of the specification:
    the [--os] argument when given, otherwise the distro label of the
    machine when present and not empty, otherwise "focal". *)
Definition os_label_as_stated (os_release : option string) (machine : Machine)
  : string :=
  match os_release with
  | Some o => o
  | None =>
      match distro_series machine with
      | Has d => if Str.truthy d then d else "focal"
      | _ => "focal"
      end
  end.

(** The same, with an empty [--os] argument counting as not given. *)
Definition resolved_os_label (os_release : option string) (machine : Machine)
  : string :=
  match os_release with
  | Some (String c o) => String c o
  | _ =>
      match distro_series machine with
      | Has (String c d) => String c d
      | _ => "focal"
      end
  end.

(** A request that aborts at a reported error: the error report is the last
    thing it does. *)
Definition aborts_at_error (t : list Event) : Prop :=
  exists before e, t = before ++ [e] /\ is_error_event e = true.

(** C7 as the specification states it, read on the trace of a redeploy
    request: an error is reported, the request aborts there, and neither a
    release nor a deploy call is issued. *)
Definition reports_and_aborts (t : list Event) : Prop :=
  aborts_at_error t
  /\ List.filter is_release t = []
  /\ List.filter is_deploy t = [].

(** C4 in the words of the specification, for a listing [ms] answered in
    state [w]: the selector returns a deployed machine [m] of the listing
    that has a timestamp, every deployed machine listed before it has a
    strictly smaller timestamp and every one listed after it has none
    greater. *)
Definition returns_latest {W : Type} `{Client W}
    (fromisoformat : string -> option datetime)
    (fromtimestamp : Z -> option datetime) (w : W) (ms : list Machine) : Prop :=
  exists before m after t w1,
    find_last_deployed_machine fromisoformat fromtimestamp w
    = (Done (Some m), w1, [EList])
    /\ ms = before ++ m :: after
    /\ Str.lower (status_name m) = "deployed"
    /\ extract_timestamp fromisoformat fromtimestamp m timestamp_attrs = Some t
    /\ (forall m' t',
          In m' before -> Str.lower (status_name m') = "deployed" ->
          extract_timestamp fromisoformat fromtimestamp m' timestamp_attrs = Some t' ->
          ticks t' < ticks t)
    /\ (forall m' t',
          In m' after -> Str.lower (status_name m') = "deployed" ->
          extract_timestamp fromisoformat fromtimestamp m' timestamp_attrs = Some t' ->
          ticks t' <= ticks t).


(** After [k] connection attempts that fail with a transient error, each
    followed by a sleep of two seconds, the next attempt succeeds. *)
Fixpoint connects_after {W : Type} `{Client W} (url key : string) (k : nat) (w : W)
  : Prop :=
  match k with
  | O => exists w1, connect url key w = (inr tt, w1)
  | S k' =>
      exists e w1,
        transient e = true
        /\ connect url key w = (inl e, w1)
        /\ connects_after url key k' (sleep 2 w1)
  end.

(** The five lines [connect_maas] prints before it gives up. *)
Definition give_up_messages : list Event :=
  [EPrint MsgUnableToConnect; EPrint MsgPleaseCheck; EPrint MsgCheckNetwork;
   EPrint MsgCheckHost; EPrint MsgCheckService].

Definition is_give_up (e : Event) : bool :=
  match e with
  | EPrint MsgUnableToConnect | EPrint MsgPleaseCheck | EPrint MsgCheckNetwork
  | EPrint MsgCheckHost | EPrint MsgCheckService => true
  | _ => false
  end.


(** ["/".join(parts)] *)
Fixpoint join_slash (parts : list string) : string :=
  match parts with
  | [] => EmptyString
  | [p] => p
  | p :: rest => p ++ String "/"%char (join_slash rest)
  end.

(** The trace of a loop that logs one message per element. *)
Definition rows_trace {A : Type} (f : A -> Msg) (l : list A)
    (log_file : option string) : list Event :=
  flat_map (fun x => log_trace (f x) log_file) l.

(** The row [list_distros] logs for a boot resource. *)
Definition distro_row (res : Resource) : Msg :=
  MsgDistroRow (res_id res) (fst (distro_of res)) (snd (distro_of res))
    (default "-" (res_architecture res)).


(** A clock [clk] kept with the state: reading the time gives it, no
    reading and no fetch turns it back, and a sleep of [d] moves it on by
    [d] at least. *)
Record steady_clock {W : Type} `{Client W} (clk : W -> Z) : Prop := {
  clock_read : forall w t w1, time_time w = (t, w1) -> t = clk w /\ clk w <= clk w1;
  clock_get : forall i w r w1, machines_get i w = (r, w1) -> clk w <= clk w1;
  clock_sleep : forall d w, clk w + d <= clk (sleep d w)
}.

(** The fetches of a run. *)
Definition fetches {A W : Type} (r : outcome A * W * list Event) : nat :=
  length (List.filter is_get (trace_of r)).

(** What [wait_for_status] may do: fetch the machine, sleep ten seconds,
    print. *)
Definition waiter_event (sysid : string) (e : Event) : Prop :=
  e = EGet sysid \/ e = ESleep 10 \/ exists msg, e = EPrint msg.

Definition not_waiter_event (sysid : string) (e : Event) : bool :=
  match e with
  | EGet i => negb (String.eqb i sysid)
  | ESleep d => negb (d =? 10)
  | EPrint _ => false
  | _ => true
  end.


(** A status from which [deploy_machine] goes on to deploy: neither
    "deployed" nor one of the non-deployable ones, up to letter case. *)
Definition deployable (m : Machine) : Prop :=
  Str.lower (status_name m) <> "deployed"
  /\ ~ In (Str.lower (status_name m)) non_deployable.


(** An error line written to the log file. *)
Definition is_error_append (e : Event) : bool :=
  match e with
  | EAppend _ m => is_error_msg m
  | _ => false
  end.

(** A call on the machines or the catalogue of the service. *)
Definition is_service_call (e : Event) : bool :=
  match e with
  | EList | EGet _ | ERelease _ | EDeploy _ _ | EListResources => true
  | _ => false
  end.

(** The actions of [main] that need [--machine]. *)
Definition needs_machine (a : Action) : option string :=
  match a with
  | ActQuery => Some "query"
  | ActStatus => Some "status"
  | ActDeploy => Some "deploy"
  | ActRedeploy => Some "redeploy"
  | _ => None
  end.

(** A service whose calls raise nothing but [Exception]s. *)
Record ordinary_errors {W : Type} `{Client W} : Prop := {
  ordinary_list : forall w e w1, machines_list w = (inl e, w1) -> is_Exception e = true;
  ordinary_get : forall i w e w1, machines_get i w = (inl e, w1) -> is_Exception e = true;
  ordinary_release :
    forall m w e w1, machine_release m w = (inl e, w1) -> is_Exception e = true;
  ordinary_deploy :
    forall m os w e w1, machine_deploy m os w = (inl e, w1) -> is_Exception e = true;
  ordinary_resources :
    forall w e w1, boot_resources_list w = (inl e, w1) -> is_Exception e = true;
  ordinary_connect :
    forall url key w e w1, connect url key w = (inl e, w1) -> is_Exception e = true
}.
Arguments ordinary_errors W {_}.

(** A computation that raises only errors in [P]. *)
Definition raises_only {W A : Type} (P : exn -> Prop) (m : M W A) : Prop :=
  forall w e w1 t, m w = (Raise e, w1, t) -> P e.


(** ** A service that comes up late

    The state counts the connection attempts that will still time out; it
    has no machines. *)
Module Flaky.

Definition flaky_connect (url key : string) (n : nat) : (exn + unit) * nat :=
  match n with
  | O => (inr tt, O)
  | S k => (inl TimeoutError, k)
  end.

Definition client : Client nat := {|
  connect := flaky_connect;
  machines_list := fun n => (inr [], n);
  machines_get := fun i n => (inl (OtherException "No Machine matches the given query."), n);
  machine_release := fun m n => (inr tt, n);
  machine_deploy := fun m os n => (inr tt, n);
  boot_resources_list := fun n => (inr [], n);
  sleep := fun d n => n;
  time_time := fun n => (0, n)
|}.

End Flaky.

(** The simulated service with the connection always made: none of its
    calls raises anything but an [Exception]. *)
Definition sim_always_up : Client Sim.World := {|
  connect := fun url key w => (inr tt, w);
  machines_list := Sim.sim_list;
  machines_get := Sim.sim_get;
  machine_release := Sim.sim_release;
  machine_deploy := Sim.sim_deploy;
  boot_resources_list := Sim.sim_resources;
  sleep := Sim.sim_sleep;
  time_time := Sim.sim_time
|}.

(** ** Facts about computations *)

Section RunFacts.
Context {S : Type}.

Lemma bind_done {A B} (m : M S A) (f : A -> M S B) s a s1 t1 r s2 t2 :
  m s = (Done a, s1, t1) -> f a s1 = (r, s2, t2) ->
  bind m f s = (r, s2, t1 ++ t2).
Proof. intros Hm Hf. unfold bind. rewrite Hm, Hf. reflexivity. Qed.

Lemma bind_raise {A B} (m : M S A) (f : A -> M S B) s e s1 t1 :
  m s = (Raise e, s1, t1) -> bind m f s = (Raise e, s1, t1).
Proof. intros Hm. unfold bind. rewrite Hm. reflexivity. Qed.

Lemma bind_out_of_fuel {A B} (m : M S A) (f : A -> M S B) s s1 t1 :
  m s = (OutOfFuel, s1, t1) -> bind m f s = (OutOfFuel, s1, t1).
Proof. intros Hm. unfold bind. rewrite Hm. reflexivity. Qed.

Lemma bind_assoc {A B C} (m : M S A) (f : A -> M S B) (g : B -> M S C) s :
  bind (bind m f) g s = bind m (fun a => bind (f a) g) s.
Proof.
  unfold bind. destruct (m s) as [[[a|e|] s1] t1]; try reflexivity.
  destruct (f a s1) as [[[b|e|] s2] t2]; try reflexivity.
  destruct (g b s2) as [[r s3] t3]. rewrite app_assoc. reflexivity.
Qed.

Lemma bind_ret_l {A B} (a : A) (f : A -> M S B) s : bind (ret a) f s = f a s.
Proof. unfold bind, ret. destruct (f a s) as [[r s1] t1]. reflexivity. Qed.

Lemma bind_trace {A B} (m : M S A) (f : A -> M S B) s a s1 t1 :
  m s = (Done a, s1, t1) ->
  trace_of (bind m f s) = t1 ++ trace_of (f a s1).
Proof.
  intros Hm. unfold bind. rewrite Hm. destruct (f a s1) as [[r s2] t2]. reflexivity.
Qed.

Lemma silent_filter (P : Event -> bool) (t : list Event) :
  Forall (fun e => P e = false) t -> List.filter P t = [].
Proof.
  induction 1 as [|e t He _ IH]; [reflexivity|]. cbn. rewrite He. exact IH.
Qed.
End RunFacts.

Section ConnectorFacts.
Context {W : Type} `{Client W}.
Variables url key : string.

Lemma transient_handled attempt e :
  transient e = true -> exists msg, connect_handler attempt e = Some msg.
Proof. destruct e; simpl; intros; try discriminate; eauto. Qed.

Lemma try_connect_caught attempt e msg (w w1 : W) :
  connect url key w = (inl e, w1) ->
  connect_handler attempt e = Some msg ->
  try_connect attempt url key w = (Done None, w1, [EConnect url key; EPrint msg]).
Proof.
  intros Hc Hmsg. unfold try_connect, try_except, bind, call.
  rewrite Hc, Hmsg. reflexivity.
Qed.

Lemma connect_loop_step (n : nat) (attempt retries : Z) (w : W) :
  connect_loop (S n) attempt retries url key w
  = bind (try_connect attempt url key)
      (fun r =>
         match r with
         | Some c => ret (Some c)
         | None =>
             bind (retry_pause attempt retries)
               (fun _ => connect_loop n (attempt + 1) retries url key)
         end) w.
Proof. reflexivity. Qed.

Lemma connect_loop_all_fail (n : nat) :
  forall (attempt retries : Z) (w : W),
    attempts_fail url key n w ->
    attempt + Z.of_nat n = retries + 1 ->
    exists w' t,
      connect_loop n attempt retries url key w = (Done None, w', t)
      /\ skeleton t = attempts_with_pauses url key n.
Proof.
  induction n as [|n IH]; intros attempt retries w Hfail Hn.
  - exists w, []. split; reflexivity.
  - destruct Hfail as (e & w1 & He & Hcw & Hrest).
    destruct (transient_handled attempt e He) as (msg & Hmsg).
    pose proof (try_connect_caught attempt e msg w w1 Hcw Hmsg) as Htry.
    destruct n as [|n].
    + exists w1, ([EConnect url key; EPrint msg] ++ [] ++ []). split; [|reflexivity].
      rewrite connect_loop_step. eapply bind_done; [exact Htry|].
      eapply bind_done; [|reflexivity].
      unfold retry_pause. replace (attempt <? retries) with false; [reflexivity|].
      symmetry. apply Z.ltb_ge. lia.
    + destruct (IH (attempt + 1) retries (sleep 2 w1) Hrest) as (w' & t & Hrun & Hsk);
        [lia|].
      exists w', ([EConnect url key; EPrint msg] ++ [EPrint MsgRetrying; ESleep 2] ++ t).
      split.
      * rewrite connect_loop_step. eapply bind_done; [exact Htry|].
        eapply bind_done; [|exact Hrun].
        unfold retry_pause. replace (attempt <? retries) with true; [reflexivity|].
        symmetry. apply Z.ltb_lt. lia.
      * change (attempts_with_pauses url key (S (S n)))
          with (EConnect url key :: ESleep 2 :: attempts_with_pauses url key (S n)).
        rewrite <- Hsk. reflexivity.
Qed.

Lemma connects_of_skeleton (t : list Event) :
  List.filter is_connect (skeleton t) = List.filter is_connect t.
Proof.
  unfold skeleton. induction t as [|e t IH]; [reflexivity|].
  destruct e; cbn; rewrite ?IH; reflexivity.
Qed.

Lemma sleeps_of_skeleton (t : list Event) :
  List.filter is_sleep (skeleton t) = List.filter is_sleep t.
Proof.
  unfold skeleton. induction t as [|e t IH]; [reflexivity|].
  destruct e; cbn; rewrite ?IH; reflexivity.
Qed.

Lemma connects_of_pattern (n : nat) :
  length (List.filter is_connect (attempts_with_pauses url key n)) = n.
Proof.
  induction n as [|[|n] IH]; [reflexivity..|].
  change (attempts_with_pauses url key (S (S n)))
    with (EConnect url key :: ESleep 2 :: attempts_with_pauses url key (S n)).
  cbn -[attempts_with_pauses]. rewrite IH. reflexivity.
Qed.

Lemma sleeps_of_pattern (n : nat) :
  List.filter is_sleep (attempts_with_pauses url key n) = repeat (ESleep 2) (n - 1).
Proof.
  induction n as [|[|n] IH]; [reflexivity..|].
  change (attempts_with_pauses url key (S (S n)))
    with (EConnect url key :: ESleep 2 :: attempts_with_pauses url key (S n)).
  cbn -[attempts_with_pauses]. rewrite IH. cbn. rewrite Nat.sub_0_r. reflexivity.
Qed.

Lemma connect_maas_all_fail (N : Z) (w : W) :
  attempts_fail url key (Z.to_nat N) w ->
  exists w' t,
    connect_maas url key N w = (Raise (SystemExit 1), w', t)
    /\ skeleton t = attempts_with_pauses url key (Z.to_nat N).
Proof.
  intros Hfail.
  destruct (connect_loop_all_fail (Z.to_nat N) 1 (Z.max N 0) w Hfail)
    as (w' & t & Hrun & Hsk); [lia|].
  assert (Hloop : connect_loop (Z.to_nat N) 1 N url key w = (Done None, w', t)).
  { destruct (Z.le_gt_cases 0 N) as [Hpos|Hneg].
    - rewrite Z.max_l in Hrun by lia. exact Hrun.
    - revert Hrun. replace (Z.to_nat N) with O by lia. cbn. trivial. }
  exists w', (t ++ [EPrint MsgUnableToConnect; EPrint MsgPleaseCheck;
                    EPrint MsgCheckNetwork; EPrint MsgCheckHost;
                    EPrint MsgCheckService]).
  split.
  - unfold connect_maas. eapply bind_done; [exact Hloop|]. reflexivity.
  - unfold skeleton in *. rewrite List.filter_app. cbn. rewrite app_nil_r. exact Hsk.
Qed.

Variable fromisoformat : string -> option datetime.
Variable fromtimestamp : Z -> option datetime.

(** C2: when each of the [N >= 1] connection attempts fails with a transient
    error, [connect_maas] connects exactly [N] times, sleeps two seconds
    between consecutive attempts and not after the last, and then leaves
    through [sys.exit(1)]; with the script's own attempt count the process
    ends with exit status 1. *)
Theorem connect_maas_exhausts_attempts (N : Z) (w : W) :
  1 <= N ->
  attempts_fail url key (Z.to_nat N) w ->
  (exists w' t,
      connect_maas url key N w = (Raise (SystemExit 1), w', t)
      /\ skeleton t = attempts_with_pauses url key (Z.to_nat N)
      /\ length (List.filter is_connect t) = Z.to_nat N
      /\ List.filter is_sleep t = repeat (ESleep 2) (Z.to_nat N - 1))
  /\ (N = 3 ->
      forall fuel args,
        fst (fst (script fromisoformat fromtimestamp fuel url key args w)) = Some 1).
Proof.
  intros HN Hfail. split.
  - destruct (connect_maas_all_fail N w Hfail) as (w' & t & Hrun & Hsk).
    exists w', t. repeat split; [exact Hrun|exact Hsk|..].
    + rewrite <- connects_of_skeleton, Hsk. apply connects_of_pattern.
    + rewrite <- sleeps_of_skeleton, Hsk. apply sleeps_of_pattern.
  - intros -> fuel args.
    destruct (connect_maas_all_fail 3 w Hfail) as (w' & t & Hrun & _).
    unfold script, main. erewrite bind_raise by exact Hrun. reflexivity.
Qed.
End ConnectorFacts.

(** ** The status waiter *)

Section WaiterFacts.
Context {W : Type} `{Client W}.
Variables sysid expected : string.
Variable timeout : Z.

Lemma eq_nocase_true (a b : string) :
  Str.eq_nocase a b = true <-> Str.lower a = Str.lower b.
Proof. unfold Str.eq_nocase. apply String.eqb_eq. Qed.

Lemma eq_nocase_false (a b : string) :
  Str.eq_nocase a b = false <-> Str.lower a <> Str.lower b.
Proof. unfold Str.eq_nocase. apply String.eqb_neq. Qed.

Lemma now_run (w w1 : W) (t : Z) :
  time_time w = (t, w1) -> now w = (Done t, w1, []).
Proof. intros Ht. unfold now. rewrite Ht. reflexivity. Qed.

Lemma bind_now {A} (f : Z -> M W A) (w w1 : W) (t : Z) :
  time_time w = (t, w1) -> bind now f w = f t w1.
Proof.
  intros Ht. unfold bind. rewrite (now_run w w1 t Ht).
  destruct (f t w1) as [[r w2] t2]. reflexivity.
Qed.

Lemma call_returns {A} (e : Event) (op : W -> (exn + A) * W) (w w1 : W) (a : A) :
  op w = (inr a, w1) -> call e op w = (Done a, w1, [e]).
Proof. intros Hop. unfold call. rewrite Hop. reflexivity. Qed.

Lemma call_raises {A} (e : Event) (op : W -> (exn + A) * W) (w w1 : W) (x : exn) :
  op w = (inl x, w1) -> call e op w = (Raise x, w1, [e]).
Proof. intros Hop. unfold call. rewrite Hop. reflexivity. Qed.

(** The loop leaves with [False] at the first test that finds the time up. *)
Lemma wait_loop_expired (fuel : nat) (start t : Z) (w w1 : W) :
  time_time w = (t, w1) ->
  timeout <= t - start ->
  wait_loop fuel start sysid expected timeout w
  = (Done false, w1, [EPrint (MsgWaitTimeout sysid expected)]).
Proof.
  intros Ht Hup.
  assert (Htest : (t - start <? timeout) = false) by (apply Z.ltb_ge; lia).
  destruct fuel; cbn [wait_loop];
    rewrite (bind_now _ w w1 t Ht), Htest; reflexivity.
Qed.

(** The loop leaves with [True] at a fetch whose status matches. *)
Lemma wait_loop_match (fuel : nat) (start t : Z) (w w1 w2 : W) (m : Machine) :
  time_time w = (t, w1) ->
  t - start < timeout ->
  machines_get sysid w1 = (inr m, w2) ->
  Str.lower (status_name m) = Str.lower expected ->
  wait_loop (S fuel) start sysid expected timeout w
  = (Done true, w2, [EGet sysid; EPrint (MsgReached (hostname m) expected)]).
Proof.
  intros Ht Hin Hget Hm.
  assert (Htest : (t - start <? timeout) = true) by (apply Z.ltb_lt; lia).
  cbn [wait_loop]. rewrite (bind_now _ w w1 t Ht), Htest.
  change [EGet sysid; EPrint (MsgReached (hostname m) expected)]
    with ([EGet sysid] ++ [EPrint (MsgReached (hostname m) expected)]).
  eapply bind_done; [apply call_returns; exact Hget|].
  apply eq_nocase_true in Hm. rewrite Hm. reflexivity.
Qed.

(** Turns that do not match are passed over. *)
Lemma wait_loop_idle (start : Z) (n : nat) (w w' : W) :
  idle_polls start timeout sysid expected n w w' ->
  forall (fuel : nat) r w'' t,
    wait_loop fuel start sysid expected timeout w' = (r, w'', t) ->
    wait_loop (n + fuel) start sysid expected timeout w
    = (r, w'', idle_trace sysid n ++ t).
Proof.
  induction 1 as [w|n w w1 w2 w' t m Ht Hin Hget Hm Hrest IH];
    intros fuel r w'' tr Hrun.
  - exact Hrun.
  - assert (Htest : (t - start <? timeout) = true) by (apply Z.ltb_lt; lia).
    apply eq_nocase_false in Hm.
    change (S n + fuel)%nat with (S (n + fuel)). cbn [wait_loop].
    rewrite (bind_now _ w w1 t Ht), Htest.
    change (idle_trace sysid (S n) ++ tr)
      with ([EGet sysid] ++ [ESleep 10] ++ idle_trace sysid n ++ tr).
    eapply bind_done; [apply call_returns; exact Hget|].
    rewrite Hm.
    eapply bind_done; [reflexivity|].
    apply IH. exact Hrun.
Qed.

(** C3: after any number of polls that did not match, [wait_for_status]
    returns [True] at the first poll whose status equals the expected one
    up to letter case, with no further fetch; and it returns [False], not an
    exception, at the first test that finds the elapsed time at or past the
    timeout. *)
Theorem wait_for_status_outcome (w w0 w1 : W) (start : Z) (n : nat) :
  time_time w = (start, w0) ->
  idle_polls start timeout sysid expected n w0 w1 ->
  (forall t w2 m w3,
      time_time w1 = (t, w2) ->
      t - start < timeout ->
      machines_get sysid w2 = (inr m, w3) ->
      Str.lower (status_name m) = Str.lower expected ->
      forall fuel, (n < fuel)%nat ->
        wait_for_status fuel sysid expected timeout w
        = (Done true, w3,
           idle_trace sysid n
             ++ [EGet sysid; EPrint (MsgReached (hostname m) expected)]))
  /\ (forall t w2,
        time_time w1 = (t, w2) ->
        timeout <= t - start ->
        forall fuel, (n <= fuel)%nat ->
          wait_for_status fuel sysid expected timeout w
          = (Done false, w2,
             idle_trace sysid n ++ [EPrint (MsgWaitTimeout sysid expected)])).
Proof.
  intros Hstart Hidle. split.
  - intros t w2 m w3 Ht Hin Hget Hm fuel Hfuel.
    unfold wait_for_status.
    rewrite (bind_now _ w w0 start Hstart).
    replace fuel with (n + S (fuel - n - 1))%nat by lia.
    eapply wait_loop_idle; [exact Hidle|].
    eapply wait_loop_match; eassumption.
  - intros t w2 Ht Hup fuel Hfuel.
    unfold wait_for_status.
    rewrite (bind_now _ w w0 start Hstart).
    replace fuel with (n + (fuel - n))%nat by lia.
    eapply wait_loop_idle; [exact Hidle|].
    eapply wait_loop_expired; eassumption.
Qed.

(** C10: with a timeout of zero or less, and a clock that does not run
    backwards between its first two readings, [wait_for_status] returns
    [False] at once: it fetches the machine not even once, whatever the
    fuel. *)
Theorem wait_for_status_no_time (w w0 w1 : W) (start t : Z) (fuel : nat) :
  timeout <= 0 ->
  time_time w = (start, w0) ->
  time_time w0 = (t, w1) ->
  start <= t ->
  wait_for_status fuel sysid expected timeout w
  = (Done false, w1, [EPrint (MsgWaitTimeout sysid expected)])
  /\ List.filter is_get (trace_of (wait_for_status fuel sysid expected timeout w)) = [].
Proof.
  intros Hto Hstart Ht Hmono.
  assert (Hrun : wait_for_status fuel sysid expected timeout w
                 = (Done false, w1, [EPrint (MsgWaitTimeout sysid expected)])).
  { unfold wait_for_status.
    rewrite (bind_now _ w w0 start Hstart).
    eapply wait_loop_expired; [exact Ht|lia]. }
  split; [exact Hrun|]. rewrite Hrun. reflexivity.
Qed.
End WaiterFacts.

(** ** The last-deployed selector *)

Section SelectorFacts.
Context {W : Type} `{Client W}.
Variable fromisoformat : string -> option datetime.
Variable fromtimestamp : Z -> option datetime.

Local Abbreviation extract := (extract_timestamp fromisoformat fromtimestamp).
Local Abbreviation reads := (reads_as fromisoformat fromtimestamp).
Local Abbreviation candidate := (candidate_of fromisoformat fromtimestamp).

Lemma is_deployed_spec (m : Machine) :
  is_deployed m = true <-> Str.lower (status_name m) = "deployed".
Proof. unfold is_deployed. apply String.eqb_eq. Qed.

(** One turn of the attribute loop either reads the value or passes on. *)
Lemma extract_cons (m : Machine) (a : string) (rest : list string) :
  extract m (a :: rest)
  = match reads (getattr m a) with
    | Some ts => Some ts
    | None => extract m rest
    end.
Proof.
  cbn [extract_timestamp]. destruct (getattr m a) as [|s|d|x|b]; cbn.
  - reflexivity.
  - destruct (Str.truthy s); reflexivity.
  - reflexivity.
  - destruct (x =? 0); reflexivity.
  - destruct b; reflexivity.
Qed.

Lemma extract_some (m : Machine) (names : list string) (ts : datetime) :
  extract m names = Some ts <->
  exists skipped a rest,
    names = skipped ++ a :: rest
    /\ Forall (fun b => reads (getattr m b) = None) skipped
    /\ reads (getattr m a) = Some ts.
Proof.
  induction names as [|a names IH].
  - split; [discriminate|]. intros (sk & b & rest & Heq & _).
    destruct sk; discriminate.
  - rewrite extract_cons. destruct (reads (getattr m a)) as [t|] eqn:Ha.
    + split.
      * intros [= <-]. exists [], a, names. repeat split; [constructor|exact Ha].
      * intros (sk & b & rest & Heq & Hsk & Hb). destruct sk as [|c sk].
        -- injection Heq as <- _. congruence.
        -- injection Heq as <- _. inversion Hsk; congruence.
    + rewrite IH. split.
      * intros (sk & b & rest & -> & Hsk & Hb).
        exists (a :: sk), b, rest. repeat split; [constructor; assumption|exact Hb].
      * intros (sk & b & rest & Heq & Hsk & Hb). destruct sk as [|c sk].
        -- injection Heq as <- _. congruence.
        -- injection Heq as <- ->. inversion Hsk; subst.
           exists sk, b, rest. repeat split; assumption.
Qed.

Lemma extract_none (m : Machine) (names : list string) :
  extract m names = None <->
  Forall (fun b => reads (getattr m b) = None) names.
Proof.
  induction names as [|a names IH].
  - split; [constructor|reflexivity].
  - rewrite extract_cons. destruct (reads (getattr m a)) as [t|] eqn:Ha.
    + split; [discriminate|]. inversion 1; congruence.
    + rewrite IH. split; [constructor; assumption|inversion 1; assumption].
Qed.

(** *** The candidates and their order *)

Lemma candidates_spec (ms : list Machine) :
  with_timestamp (collect_candidates fromisoformat fromtimestamp ms)
  = omap candidate ms.
Proof.
  unfold with_timestamp, candidate_of.
  induction ms as [|m ms IH]; [reflexivity|].
  cbn -[extract_timestamp is_deployed].
  destruct (is_deployed m); cbn -[extract_timestamp is_deployed]; [|exact IH].
  destruct (extract m timestamp_attrs); cbn -[extract_timestamp is_deployed];
    rewrite IH; reflexivity.
Qed.

Lemma candidate_inv (m : Machine) (c : datetime * Machine) :
  candidate m = Some c ->
  snd c = m /\ is_deployed m = true /\ extract m timestamp_attrs = Some (fst c).
Proof.
  unfold candidate_of. destruct (is_deployed m); [|discriminate].
  destruct (extract m timestamp_attrs); [|discriminate].
  intros [= <-]. auto.
Qed.

Lemma in_candidates (ms : list Machine) (c : datetime * Machine) :
  In c (omap candidate ms) ->
  In (snd c) ms /\ is_deployed (snd c) = true
  /\ extract (snd c) timestamp_attrs = Some (fst c).
Proof.
  induction ms as [|m ms IH]; cbn; [tauto|].
  destruct (candidate m) as [c'|] eqn:Hc.
  - intros [->|Hin].
    + apply candidate_inv in Hc as (<- & Hd & He). auto.
    + destruct (IH Hin) as (? & ? & ?). auto.
  - intros Hin. destruct (IH Hin) as (? & ? & ?). auto.
Qed.

(** A split of the candidates comes from a split of the listing. *)
Lemma omap_split {A B} (f : A -> option B) (l : list A) (c1 c2 : list B) (c : B) :
  omap f l = c1 ++ c :: c2 ->
  exists l1 x l2,
    l = l1 ++ x :: l2 /\ omap f l1 = c1 /\ f x = Some c /\ omap f l2 = c2.
Proof.
  revert c1. induction l as [|a l IH]; intros c1; cbn.
  - destruct c1; discriminate.
  - destruct (f a) as [b|] eqn:Ha.
    + destruct c1 as [|b' c1]; cbn.
      * intros [= -> <-]. exists [], a, l. auto.
      * intros [= -> Hrest]. destruct (IH c1 Hrest) as (l1 & x & l2 & -> & Hl1 & Hx & Hl2).
        exists (a :: l1), x, l2. cbn. rewrite Ha, Hl1. auto.
    + intros Hrest. destruct (IH c1 Hrest) as (l1 & x & l2 & -> & Hl1 & Hx & Hl2).
      exists (a :: l1), x, l2. cbn. rewrite Ha. auto.
Qed.

Lemma sort_desc_cons (x : datetime * Machine) (l : list (datetime * Machine)) :
  sort_desc (x :: l) = insert_desc x (sort_desc l).
Proof. reflexivity. Qed.

(** The head of the sorted candidates is the first of those with the
    greatest timestamp. *)
Lemma sort_desc_head (x : datetime * Machine) (l : list (datetime * Machine)) :
  exists c1 c c2 sorted,
    x :: l = c1 ++ c :: c2
    /\ sort_desc (x :: l) = c :: sorted
    /\ Forall (fun c' => ticks (fst c') < ticks (fst c)) c1
    /\ Forall (fun c' => ticks (fst c') <= ticks (fst c)) c2.
Proof.
  revert x. induction l as [|y l IH]; intros x.
  - exists [], x, [], []. repeat split; constructor.
  - destruct (IH y) as (c1 & c & c2 & sorted & Heq & Hs & H1 & H2).
    rewrite sort_desc_cons, Hs. cbn [insert_desc].
    destruct (ticks (fst x) <? ticks (fst c)) eqn:Hlt.
    + apply Z.ltb_lt in Hlt.
      exists (x :: c1), c, c2, (insert_desc x sorted).
      rewrite Heq. repeat split; [constructor; assumption|assumption].
    + apply Z.ltb_ge in Hlt.
      exists [], x, (y :: l), (c :: sorted).
      repeat split; [constructor|]. rewrite Heq.
      apply Forall_app. split.
      * eapply Forall_impl; [exact H1|]. cbn. intros; lia.
      * constructor; [exact Hlt|].
        eapply Forall_impl; [exact H2|]. cbn. intros; lia.
Qed.

Lemma all_comparable_pairwise (l : list datetime) :
  (forall a b, In a l -> In b l -> aware a = aware b) ->
  all_comparable l = true.
Proof.
  destruct l as [|d rest]; [reflexivity|]. intros Hall. cbn.
  apply forallb_forall. intros b Hb. unfold comparable.
  apply Bool.eqb_true_iff. apply Hall; [left; reflexivity|right; exact Hb].
Qed.

Lemma candidate_in (ms : list Machine) (m : Machine) (t : datetime) :
  In m ms -> is_deployed m = true -> extract m timestamp_attrs = Some t ->
  In (t, m) (omap candidate ms).
Proof.
  intros Hin Hd He.
  assert (Hc : candidate m = Some (t, m)).
  { unfold candidate_of. rewrite Hd, He. reflexivity. }
  induction ms as [|a ms IH]; [contradiction|].
  cbn -[extract_timestamp is_deployed]. destruct Hin as [->|Hin].
  - rewrite Hc. left. reflexivity.
  - destruct (candidate a); [right|]; apply IH; exact Hin.
Qed.

Lemma find_some_split {A} (p : A -> bool) (l : list A) (x : A) :
  List.find p l = Some x <->
  exists before after,
    l = before ++ x :: after /\ p x = true /\ Forall (fun y => p y = false) before.
Proof.
  induction l as [|a l IH]; cbn.
  - split; [discriminate|]. intros (b & ? & Heq & _). destruct b; discriminate.
  - destruct (p a) eqn:Ha.
    + split.
      * intros [= <-]. exists [], l. repeat split; [exact Ha|constructor].
      * intros ([|b bs] & af & Heq & Hx & Hb).
        -- injection Heq as <- _. reflexivity.
        -- injection Heq as <- _. inversion Hb; congruence.
    + rewrite IH. split.
      * intros (b & af & -> & Hx & Hb). exists (a :: b), af.
        repeat split; [exact Hx|constructor; assumption].
      * intros ([|b bs] & af & Heq & Hx & Hb).
        -- injection Heq as <- _. congruence.
        -- injection Heq as <- ->. inversion Hb; subst. exists bs, af. auto.
Qed.

Lemma find_none_all {A} (p : A -> bool) (l : list A) :
  List.find p l = None <-> Forall (fun y => p y = false) l.
Proof.
  induction l as [|a l IH]; cbn.
  - split; [constructor|reflexivity].
  - destruct (p a) eqn:Ha.
    + split; [discriminate|]. inversion 1; congruence.
    + rewrite IH. split; [constructor; assumption|inversion 1; assumption].
Qed.

Lemma not_deployed_spec (m : Machine) :
  is_deployed m = false <-> Str.lower (status_name m) <> "deployed".
Proof. unfold is_deployed. apply String.eqb_neq. Qed.

Lemma find_last_deployed_run (w w1 : W) (ms : list Machine) :
  machines_list w = (inr ms, w1) ->
  find_last_deployed_machine fromisoformat fromtimestamp w
  = (match select_last_deployed fromisoformat fromtimestamp ms with
     | inr r => Done r
     | inl e => Raise e
     end, w1, [EList]).
Proof.
  intros Hl. unfold find_last_deployed_machine, bind, call. rewrite Hl.
  destruct (select_last_deployed fromisoformat fromtimestamp ms); reflexivity.
Qed.


(** C5: when no deployed machine yields a timestamp, the selector returns
    the first machine of the listing whose status is "deployed" up to
    letter case, and nothing when no machine has that status. *)
Theorem find_last_deployed_fallback (w w1 : W) (ms : list Machine) :
  machines_list w = (inr ms, w1) ->
  (forall m, In m ms -> Str.lower (status_name m) = "deployed" ->
             extract m timestamp_attrs = None) ->
  (forall before m after,
      ms = before ++ m :: after ->
      Str.lower (status_name m) = "deployed" ->
      Forall (fun m' => Str.lower (status_name m') <> "deployed") before ->
      find_last_deployed_machine fromisoformat fromtimestamp w
      = (Done (Some m), w1, [EList]))
  /\ (Forall (fun m' => Str.lower (status_name m') <> "deployed") ms ->
      find_last_deployed_machine fromisoformat fromtimestamp w
      = (Done None, w1, [EList])).
Proof.
  intros Hl Hnone.
  assert (Hcs : omap candidate ms = []).
  { destruct (omap candidate ms) as [|c l] eqn:Hcs; [reflexivity|].
    assert (Hin : In c (omap candidate ms)) by (rewrite Hcs; left; reflexivity).
    apply in_candidates in Hin as (Hin & Hd & He). apply is_deployed_spec in Hd.
    rewrite (Hnone _ Hin Hd) in He. discriminate. }
  assert (Hsel : select_last_deployed fromisoformat fromtimestamp ms
                 = inr (List.find is_deployed ms)).
  { unfold select_last_deployed. rewrite candidates_spec, Hcs. reflexivity. }
  rewrite (find_last_deployed_run w w1 _ Hl), Hsel. split.
  - intros before m after Heq Hd Hb.
    replace (List.find is_deployed ms) with (Some m); [reflexivity|].
    symmetry. apply find_some_split. exists before, after.
    split; [exact Heq|]. split; [apply is_deployed_spec; exact Hd|].
    eapply Forall_impl; [exact Hb|]. intros m'. apply not_deployed_spec.
  - intros Hall. replace (List.find is_deployed ms) with (@None Machine); [reflexivity|].
    symmetry. apply find_none_all.
    eapply Forall_impl; [exact Hall|]. intros m'. apply not_deployed_spec.
Qed.

End SelectorFacts.

(** ** Which events a computation can emit *)

Section SilentFacts.
Context {W : Type} `{Client W}.
Variable P : Event -> bool.

Lemma silent_ret {A} (a : A) : silent P (ret a : M W A).
Proof. intros w. constructor. Qed.

Lemma silent_raise {A} (e : exn) : silent P (raise e : M W A).
Proof. intros w. constructor. Qed.

Lemma silent_out_of_fuel {A} : silent P (out_of_fuel : M W A).
Proof. intros w. constructor. Qed.

Lemma silent_emit (e : Event) : P e = false -> silent P (emit e : M W unit).
Proof. intros He w. repeat constructor. exact He. Qed.

Lemma silent_call {A} (e : Event) (op : W -> (exn + A) * W) :
  P e = false -> silent P (call e op).
Proof.
  intros He w. unfold call, trace_of.
  destruct (op w) as [[x|a] w1]; repeat constructor; exact He.
Qed.

Lemma silent_bind {A B} (m : M W A) (f : A -> M W B) :
  silent P m -> (forall a, silent P (f a)) -> silent P (bind m f).
Proof.
  intros Hm Hf w. specialize (Hm w). unfold bind, trace_of in *.
  destruct (m w) as [[[a| |] w1] t1]; cbn in *; try exact Hm.
  specialize (Hf a w1). unfold trace_of in Hf.
  destruct (f a w1) as [[r w2] t2]. cbn in *. apply Forall_app. split; assumption.
Qed.

Lemma silent_try_except {A} (m : M W A) (sel : exn -> bool) (h : exn -> M W A) :
  silent P m -> (forall e, silent P (h e)) -> silent P (try_except m sel h).
Proof.
  intros Hm Hh w. specialize (Hm w). unfold try_except, trace_of in *.
  destruct (m w) as [[[a|e|] w1] t1]; cbn in *; try exact Hm.
  destruct (sel e); [|exact Hm].
  specialize (Hh e w1). unfold trace_of in Hh.
  destruct (h e w1) as [[r w2] t2]. cbn in *. apply Forall_app. split; assumption.
Qed.

Lemma silent_now : silent P (now : M W Z).
Proof. intros w. unfold now, trace_of. destruct (time_time w). constructor. Qed.

Lemma silent_do_sleep (seconds : Z) :
  P (ESleep seconds) = false -> silent P (do_sleep seconds : M W unit).
Proof. intros He w. repeat constructor. exact He. Qed.

Lemma silent_print (msg : Msg) : P (EPrint msg) = false -> silent P (print msg : M W unit).
Proof. apply silent_emit. Qed.

Lemma silent_log (msg : Msg) (log_file : option string) :
  P (EPrint msg) = false ->
  (forall f, P (EAppend f msg) = false) ->
  silent P (log msg log_file : M W unit).
Proof.
  intros Hp Ha. unfold log. apply silent_bind; [apply silent_print; exact Hp|].
  intros _. destruct log_file as [f|]; [|apply silent_ret].
  destruct (Str.truthy f); [apply silent_emit; apply Ha|apply silent_ret].
Qed.
End SilentFacts.

Create HintDb silent.
#[local] Hint Resolve silent_ret silent_raise silent_out_of_fuel silent_now : silent.
#[local] Hint Extern 1 (silent _ (bind _ _)) => apply silent_bind; [|intros] : silent.
#[local] Hint Extern 1 (silent _ (emit _)) => apply silent_emit; reflexivity : silent.
#[local] Hint Extern 1 (silent _ (print _)) => apply silent_print; reflexivity : silent.
#[local] Hint Extern 1 (silent _ (call _ _)) => apply silent_call; reflexivity : silent.
#[local] Hint Extern 1 (silent _ (do_sleep _)) => apply silent_do_sleep; reflexivity : silent.
#[local] Hint Extern 1 (silent _ (log _ _)) =>
  apply silent_log; [reflexivity|intros; reflexivity] : silent.
#[local] Hint Extern 2 (silent _ (if ?b then _ else _)) => destruct b : silent.
#[local] Hint Extern 2 (silent _ (match ?o with Some _ => _ | None => _ end)) =>
  destruct o : silent.

Section RedeployFacts.
Context {W : Type} `{Client W}.

Lemma wait_loop_silent (P : Event -> bool) (fuel : nat) (start : Z)
    (sysid expected : string) (timeout : Z) :
  P (EGet sysid) = false -> P (ESleep 10) = false ->
  (forall msg, P (EPrint msg) = false) ->
  silent P (wait_loop fuel start sysid expected timeout : M W bool).
Proof.
  intros Hg Hs Hp. induction fuel as [|fuel IH]; cbn [wait_loop].
  - apply silent_bind; [apply silent_now|]. intros t.
    destruct (t - start <? timeout); [apply silent_out_of_fuel|].
    apply silent_bind; [apply silent_print, Hp|]. intros _. apply silent_ret.
  - apply silent_bind; [apply silent_now|]. intros t.
    destruct (t - start <? timeout).
    + apply silent_bind; [apply silent_call, Hg|]. intros m.
      destruct (Str.eq_nocase (status_name m) expected).
      * apply silent_bind; [apply silent_print, Hp|]. intros _. apply silent_ret.
      * apply silent_bind; [apply silent_do_sleep, Hs|]. intros _. exact IH.
    + apply silent_bind; [apply silent_print, Hp|]. intros _. apply silent_ret.
Qed.

Lemma wait_for_status_silent (P : Event -> bool) (fuel : nat)
    (sysid expected : string) (timeout : Z) :
  P (EGet sysid) = false -> P (ESleep 10) = false ->
  (forall msg, P (EPrint msg) = false) ->
  silent P (wait_for_status fuel sysid expected timeout : M W bool).
Proof.
  intros Hg Hs Hp. unfold wait_for_status.
  apply silent_bind; [apply silent_now|]. intros start.
  apply wait_loop_silent; assumption.
Qed.

(** Called with a machine object, [deploy_machine] finds no machine of that
    name: it lists the machines and reports an error. *)
Lemma deploy_machine_by_object (machine : Machine) (os : option string)
    (log_file : option string) (w w1 : W) (ms : list Machine) :
  machines_list w = (inr ms, w1) ->
  deploy_machine (ByObject machine) os log_file w
  = (Done tt, w1, EList :: log_trace (MsgErrNotFound (ByObject machine)) log_file).
Proof.
  intros Hl. unfold deploy_machine, try_except, bind, call. rewrite Hl.
  assert (Hfind : List.find (hostname_is (ByObject machine)) ms = None).
  { clear Hl. induction ms as [|a ms IH]; [reflexivity|exact IH]. }
  rewrite Hfind. unfold log, log_trace, bind, print, emit, ret.
  destruct log_file as [f|]; [destruct (Str.truthy f)|]; reflexivity.
Qed.

Lemma deploy_machine_by_object_silent (machine : Machine) (os : option string)
    (log_file : option string) :
  silent is_deploy (deploy_machine (ByObject machine) os log_file : M W unit).
Proof.
  unfold deploy_machine. apply silent_try_except; [|intros; auto with silent].
  apply silent_bind; [auto with silent|]. intros ms.
  assert (Hfind : List.find (hostname_is (ByObject machine)) ms = None).
  { induction ms as [|a ms IH]; [reflexivity|exact IH]. }
  rewrite Hfind. auto with silent.
Qed.

Lemma query_machine_silent (P : Event -> bool) (host : string)
    (log_file : option string) (quiet : bool) :
  P EList = false -> (forall i, P (EGet i) = false) ->
  (forall msg, P (EPrint msg) = false) -> (forall f msg, P (EAppend f msg) = false) ->
  silent P (query_machine host log_file quiet : M W (option Machine)).
Proof.
  intros Hl Hg Hp Ha. unfold query_machine.
  apply silent_bind; [apply silent_call, Hl|]. intros ms.
  destruct (List.find _ ms) as [m|].
  - apply silent_bind; [apply silent_call, Hg|]. intros machine.
    apply silent_bind; [|intros; apply silent_ret].
    destruct quiet; [apply silent_ret|].
    apply silent_bind; [|intros]; apply silent_log; auto.
  - apply silent_bind; [|intros; apply silent_ret]. apply silent_log; auto.
Qed.

(** No run of [redeploy_machine] reaches [machine.deploy]. *)
Lemma redeploy_machine_no_deploy (fuel : nat) (host : string)
    (os_release log_file : option string) :
  silent is_deploy (redeploy_machine fuel host os_release log_file : M W unit).
Proof.
  unfold redeploy_machine.
  apply silent_bind; [apply query_machine_silent; reflexivity|].
  intros [machine|]; [|apply silent_ret]. unfold redeploy_steps.
  apply silent_bind.
  - destruct (is_deployed machine); [|apply silent_ret].
    apply silent_bind.
    + unfold release_machine. destruct (is_deployed machine); auto with silent.
    + intros _. apply silent_bind; [|intros; apply silent_ret].
      apply wait_for_status_silent; reflexivity.
  - intros _. apply silent_bind; [apply deploy_machine_by_object_silent|].
    intros _. apply silent_bind; [apply wait_for_status_silent; reflexivity|].
    intros _. auto with silent.
Qed.

Lemma log_run (msg : Msg) (log_file : option string) (w : W) :
  log msg log_file w = (Done tt, w, log_trace msg log_file).
Proof.
  unfold log, log_trace, bind, print, emit, ret.
  destruct log_file as [f|]; [destruct (Str.truthy f)|]; reflexivity.
Qed.

Lemma query_machine_found (host : string) (log_file : option string)
    (w w1 w2 : W) (ms : list Machine) (m0 m : Machine) :
  machines_list w = (inr ms, w1) ->
  List.find (fun x => String.eqb (hostname x) host) ms = Some m0 ->
  machines_get (system_id m0) w1 = (inr m, w2) ->
  query_machine host log_file false w = (Done (Some m), w2, query_trace m0 m log_file).
Proof.
  intros Hl Hf Hg. unfold query_machine, query_trace.
  change [EList; EGet (system_id m0)] with ([EList] ++ [EGet (system_id m0)]).
  rewrite <- app_assoc.
  eapply bind_done; [apply call_returns; exact Hl|]. rewrite Hf.
  eapply bind_done; [apply call_returns; exact Hg|].
  rewrite <- (app_nil_r (log_trace MsgDetailsHeader log_file ++ _)).
  eapply bind_done; [|reflexivity].
  eapply bind_done; apply log_run.
Qed.

(** Called with a machine object, [deploy_machine] ends in an error report
    whatever the listing answers, short of an interrupt. *)
Lemma deploy_machine_by_object_reports (machine : Machine) (os : option string)
    (log_file : option string) (w w1 : W) (r : exn + list Machine) :
  machines_list w = (r, w1) ->
  (forall e, r = inl e -> is_Exception e = true) ->
  exists msg,
    is_error_msg msg = true
    /\ deploy_machine (ByObject machine) os log_file w
       = (Done tt, w1, EList :: log_trace msg log_file).
Proof.
  intros Hl Hexc. destruct r as [e|ms].
  - exists (MsgErrDeployFailed (ByObject machine) e). split; [reflexivity|].
    unfold deploy_machine, try_except.
    erewrite bind_raise by (apply call_raises; exact Hl).
    rewrite (Hexc e eq_refl), log_run. reflexivity.
  - exists (MsgErrNotFound (ByObject machine)). split; [reflexivity|].
    eapply deploy_machine_by_object. exact Hl.
Qed.

Lemma release_machine_run (m : Machine) (w w1 : W) :
  Str.lower (status_name m) = "deployed" ->
  machine_release m w = (inr tt, w1) ->
  release_machine m w
  = (Done tt, w1, [EPrint (MsgReleasing (hostname m)); ERelease (system_id m)]).
Proof.
  intros Hd Hr. unfold release_machine.
  replace (is_deployed m) with true by (symmetry; apply String.eqb_eq; exact Hd).
  change [EPrint (MsgReleasing (hostname m)); ERelease (system_id m)]
    with ([EPrint (MsgReleasing (hostname m))] ++ [ERelease (system_id m)]).
  eapply bind_done; [reflexivity|]. apply call_returns. exact Hr.
Qed.

(** C1 (as the code has it): on a machine whose status is "Deployed",
    [redeploy_machine] issues the release and waits for "Ready"; whatever
    that wait returns, it then enters [deploy_machine] with the machine
    object in place of the host name, where the lookup by name finds
    nothing and an error is reported.  No run issues a deploy call. *)
Theorem redeploy_deployed_releases_but_never_deploys
    (fuel : nat) (host : string) (os_release log_file : option string)
    (w w1 w2 w3 : W) (ms : list Machine) (m0 m : Machine) :
  machines_list w = (inr ms, w1) ->
  List.find (fun x => String.eqb (hostname x) host) ms = Some m0 ->
  machines_get (system_id m0) w1 = (inr m, w2) ->
  Str.lower (status_name m) = "deployed" ->
  machine_release m w2 = (inr tt, w3) ->
  (exists rest,
      trace_of (redeploy_machine fuel host os_release log_file w)
      = query_trace m0 m log_file
          ++ [EPrint (MsgReleasing (hostname m)); ERelease (system_id m)] ++ rest)
  /\ (forall ready w4 tw r w5,
        wait_for_status fuel (system_id m) "Ready" DEFAULT_TIMEOUT w3
        = (Done ready, w4, tw) ->
        machines_list w4 = (r, w5) ->
        (forall e, r = inl e -> is_Exception e = true) ->
        exists msg rest,
          is_error_msg msg = true
          /\ trace_of (redeploy_machine fuel host os_release log_file w)
             = query_trace m0 m log_file
                 ++ [EPrint (MsgReleasing (hostname m)); ERelease (system_id m)]
                 ++ tw ++ [EList; EPrint msg] ++ rest)
  /\ List.filter is_deploy
       (trace_of (redeploy_machine fuel host os_release log_file w)) = [].
Proof.
  intros Hl Hf Hg Hd Hr.
  pose proof (query_machine_found host log_file w w1 w2 ms m0 m Hl Hf Hg) as Hq.
  pose proof (release_machine_run m w2 w3 Hd Hr) as Hrel.
  assert (Hdep : is_deployed m = true) by (apply String.eqb_eq; exact Hd).
  unfold redeploy_machine.
  rewrite (bind_trace _ _ _ _ _ _ Hq). unfold redeploy_steps. rewrite Hdep.
  rewrite !bind_assoc. rewrite (bind_trace _ _ _ _ _ _ Hrel).
  split; [|split].
  - eexists. reflexivity.
  - intros ready w4 tw r w5 Hw Hl2 Hexc.
    destruct (deploy_machine_by_object_reports m
                (Some (os_to_use os_release m)) None w4 w5 r Hl2 Hexc)
      as (msg & Herr & Hrun).
    exists msg. eexists. split; [exact Herr|].
    rewrite bind_assoc, (bind_trace _ _ _ _ _ _ Hw). rewrite bind_ret_l.
    rewrite (bind_trace _ _ _ _ _ _ Hrun). reflexivity.
  - apply silent_filter.
    pose proof (redeploy_machine_no_deploy fuel host os_release log_file w) as Hs.
    unfold redeploy_machine in Hs.
    rewrite (bind_trace _ _ _ _ _ _ Hq) in Hs. unfold redeploy_steps in Hs.
    rewrite Hdep in Hs.
    rewrite !bind_assoc in Hs. rewrite (bind_trace _ _ _ _ _ _ Hrel) in Hs.
    exact Hs.
Qed.

Lemma log_trace_quiet (P : Event -> bool) (msg : Msg) (log_file : option string) :
  P (EPrint msg) = false -> (forall f, P (EAppend f msg) = false) ->
  Forall (fun e => P e = false) (log_trace msg log_file).
Proof.
  intros Hp Ha. unfold log_trace. constructor; [exact Hp|].
  destruct log_file as [f|]; [destruct (Str.truthy f)|]; repeat constructor.
  apply Ha.
Qed.

Lemma not_deployed_when_non_deployable (m : Machine) :
  In (Str.lower (status_name m)) non_deployable -> is_deployed m = false.
Proof.
  unfold is_deployed, non_deployable. intros Hin. apply String.eqb_neq. intros Heq.
  rewrite Heq in Hin. cbn in Hin.
  repeat (destruct Hin as [Hin|Hin]; [discriminate|]). exact Hin.
Qed.

Lemma query_trace_quiet (P : Event -> bool) (m0 m : Machine)
    (log_file : option string) :
  P EList = false -> (forall i, P (EGet i) = false) ->
  (forall x, P (EPrint x) = false) -> (forall f x, P (EAppend f x) = false) ->
  Forall (fun e => P e = false) (query_trace m0 m log_file).
Proof.
  intros HL HG HP HA. unfold query_trace.
  repeat (apply Forall_app; split);
    try (apply log_trace_quiet; [apply HP|intros; apply HA]).
  repeat constructor; [exact HL|apply HG].
Qed.

Lemma deploy_machine_no_release (who : name_arg) (os log_file : option string) :
  silent is_release (deploy_machine who os log_file : M W unit).
Proof.
  unfold deploy_machine. apply silent_try_except; [|intros; auto with silent].
  apply silent_bind; [auto with silent|]. intros ms.
  destruct (List.find (hostname_is who) ms) as [machine|]; [|auto with silent].
  cbv zeta. destruct (String.eqb _ "deployed"); [auto with silent|].
  destruct (existsb _ non_deployable); auto 6 with silent.
Qed.

Lemma redeploy_steps_no_release (fuel : nat) (m : Machine) (os host : string)
    (log_file : option string) :
  is_deployed m = false ->
  silent is_release (redeploy_steps fuel m os host log_file : M W unit).
Proof.
  intros Hnot. unfold redeploy_steps. rewrite Hnot.
  apply silent_bind; [apply silent_ret|]. intros _.
  apply silent_bind; [apply deploy_machine_no_release|]. intros _.
  apply silent_bind; [apply wait_for_status_silent; reflexivity|].
  intros _. auto with silent.
Qed.



(** C9: when the machine that [deploy_machine] finds under the given host
    name already has the status "deployed" up to letter case, the
    operation lists the machines, reports the details of that machine and
    returns: it issues no deploy and no release call and leaves the service
    in the state the listing left it in. *)
Theorem deploy_machine_already_deployed
    (name : string) (os : option string) (log_file : option string)
    (w w1 : W) (before after : list Machine) (m : Machine) :
  machines_list w = (inr (before ++ m :: after), w1) ->
  hostname m = name ->
  Forall (fun x => hostname x <> name) before ->
  Str.lower (status_name m) = "deployed" ->
  deploy_machine (ByName name) os log_file w
  = (Done tt, w1,
     EList :: log_trace (MsgInfoAlreadyDeployed (ByName name) m) log_file)
  /\ List.filter is_deploy
       (trace_of (deploy_machine (ByName name) os log_file w)) = []
  /\ List.filter is_release
       (trace_of (deploy_machine (ByName name) os log_file w)) = [].
Proof.
  intros Hl Hn Hb Hd.
  assert (Hfind : List.find (hostname_is (ByName name)) (before ++ m :: after) = Some m).
  { apply find_some_split. exists before, after. split; [reflexivity|].
    split; [apply String.eqb_eq; exact Hn|].
    eapply Forall_impl; [exact Hb|]. intros x Hx. apply String.eqb_neq. exact Hx. }
  assert (Hrun : deploy_machine (ByName name) os log_file w
                 = (Done tt, w1,
                    EList :: log_trace (MsgInfoAlreadyDeployed (ByName name) m)
                               log_file)).
  { unfold deploy_machine, try_except, bind, call.
    rewrite Hl, Hfind. cbv zeta. rewrite Hd.
    change (String.eqb "deployed" "deployed") with true. cbv iota.
    rewrite log_run. reflexivity. }
  split; [exact Hrun|].
  rewrite Hrun. unfold trace_of. cbn [snd].
  split; apply silent_filter; (constructor; [reflexivity|]);
    apply log_trace_quiet; intros; reflexivity.
Qed.
End RedeployFacts.

(** ** More on the connector *)

Section ConnectorReturns.
Context {W : Type} `{Client W}.
Variables url key : string.

Lemma try_connect_returns (attempt : Z) (w w1 : W) :
  connect url key w = (inr tt, w1) ->
  try_connect attempt url key w = (Done (Some tt), w1, [EConnect url key]).
Proof.
  intros Hc. unfold try_connect, try_except, bind, call. rewrite Hc. reflexivity.
Qed.

Lemma try_connect_escapes (attempt : Z) (e : exn) (w w1 : W) :
  connect url key w = (inl e, w1) ->
  transient e = false ->
  try_connect attempt url key w = (Raise e, w1, [EConnect url key]).
Proof.
  intros Hc He. unfold try_connect, try_except, bind, call. rewrite Hc.
  destruct e; try discriminate He; reflexivity.
Qed.

Lemma connect_loop_returns (k : nat) :
  forall (n : nat) (attempt retries : Z) (w : W),
    connects_after url key k w ->
    (k < n)%nat ->
    attempt + Z.of_nat n = retries + 1 ->
    exists w' t,
      connect_loop n attempt retries url key w = (Done (Some tt), w', t)
      /\ skeleton t = attempts_with_pauses url key (S k)
      /\ List.filter is_sleep t = repeat (ESleep 2) k.
Proof.
  induction k as [|k IH]; intros n attempt retries w Hk Hlt Hn.
  - destruct Hk as (w1 & Hc). destruct n as [|n]; [lia|].
    exists w1, ([EConnect url key] ++ []). split; [|split; reflexivity].
    rewrite connect_loop_step.
    eapply bind_done; [apply try_connect_returns; exact Hc|reflexivity].
  - destruct Hk as (e & w1 & He & Hc & Hrest). destruct n as [|n]; [lia|].
    destruct (transient_handled attempt e He) as (msg & Hmsg).
    destruct (IH n (attempt + 1) retries (sleep 2 w1) Hrest) as (w' & t & Hrun & Hsk & Hsl);
      [lia|lia|].
    exists w', ([EConnect url key; EPrint msg] ++ [EPrint MsgRetrying; ESleep 2] ++ t).
    split; [|split].
    + rewrite connect_loop_step.
      eapply bind_done; [exact (try_connect_caught url key attempt e msg w w1 Hc Hmsg)|].
      eapply bind_done; [|exact Hrun].
      unfold retry_pause. replace (attempt <? retries) with true; [reflexivity|].
      symmetry. apply Z.ltb_lt. lia.
    + change (attempts_with_pauses url key (S (S k)))
        with (EConnect url key :: ESleep 2 :: attempts_with_pauses url key (S k)).
      rewrite <- Hsk. reflexivity.
    + cbn. rewrite Hsl. reflexivity.
Qed.

Lemma connect_loop_no_give_up (n : nat) :
  forall attempt retries : Z,
    silent is_give_up (connect_loop n attempt retries url key : M W (option unit)).
Proof.
  induction n as [|n IH]; intros attempt retries; cbn [connect_loop].
  - apply silent_ret.
  - apply silent_bind.
    + unfold try_connect. apply silent_try_except; [auto with silent|].
      intros e. destruct e; cbn; auto with silent.
    + intros [c|]; [apply silent_ret|].
      apply silent_bind; [unfold retry_pause; auto with silent|].
      intros _. apply IH.
Qed.

(** X1: when the first [k] attempts fail with a transient error and the
    next one succeeds, with [k] below the attempt count, [connect_maas]
    returns the client after exactly [k + 1] attempts and [k] sleeps of two
    seconds, and prints none of the give-up lines. *)
Theorem connect_maas_returns_on_first_success (N : Z) (k : nat) (w : W) :
  (k < Z.to_nat N)%nat ->
  connects_after url key k w ->
  exists w' t,
    connect_maas url key N w = (Done tt, w', t)
    /\ skeleton t = attempts_with_pauses url key (S k)
    /\ length (List.filter is_connect t) = S k
    /\ List.filter is_sleep t = repeat (ESleep 2) k
    /\ List.filter is_give_up t = [].
Proof.
  intros Hlt Hk.
  destruct (connect_loop_returns k (Z.to_nat N) 1 N w Hk Hlt) as (w' & t & Hrun & Hsk & Hsl);
    [lia|].
  exists w', (t ++ []). split; [|rewrite app_nil_r; split; [exact Hsk|split; [|split]]].
  - unfold connect_maas. eapply bind_done; [exact Hrun|reflexivity].
  - rewrite <- connects_of_skeleton, Hsk. apply connects_of_pattern.
  - exact Hsl.
  - apply silent_filter.
    pose proof (connect_loop_no_give_up (Z.to_nat N) 1 N w) as Hq.
    rewrite Hrun in Hq. exact Hq.
Qed.

(** X2: an error of [connect] that no [except] clause names is not
    retried: [connect_maas] raises it after this one attempt, without a
    sleep, a give-up line or [sys.exit]. *)
Theorem connect_maas_propagates_other_errors (N : Z) (e : exn) (w w1 : W) :
  1 <= N ->
  connect url key w = (inl e, w1) ->
  transient e = false ->
  connect_maas url key N w = (Raise e, w1, [EConnect url key]).
Proof.
  intros HN Hc He. unfold connect_maas.
  destruct (Z.to_nat N) as [|n] eqn:Hn; [lia|].
  apply bind_raise. rewrite connect_loop_step. apply bind_raise.
  apply try_connect_escapes; assumption.
Qed.

(** X3: with an attempt count of zero or less, [connect_maas] makes no
    connection attempt at all: it prints the give-up lines and leaves
    through [sys.exit(1)]. *)
Theorem connect_maas_without_attempts (N : Z) (w : W) :
  N <= 0 ->
  connect_maas url key N w = (Raise (SystemExit 1), w, give_up_messages).
Proof.
  intros HN. unfold connect_maas. replace (Z.to_nat N) with O by lia. reflexivity.
Qed.
End ConnectorReturns.

(** ** The listings *)

Section ListingFacts.
Context {W : Type} `{Client W}.

Lemma split_slash_not_nil (s : string) : split_slash s <> [].
Proof.
  induction s as [|c s IH]; cbn; [discriminate|].
  destruct (Ascii.eqb c "/"); [discriminate|].
  destruct (split_slash s); discriminate.
Qed.

Lemma join_slash_cons (p : string) (rest : list string) :
  rest <> [] -> join_slash (p :: rest) = (p ++ String "/"%char (join_slash rest))%string.
Proof. destruct rest; [congruence|reflexivity]. Qed.

Lemma join_slash_cons_char (c : ascii) (p : string) (ps : list string) :
  join_slash (String c p :: ps) = String c (join_slash (p :: ps)).
Proof. destruct ps; reflexivity. Qed.

(** X4: [split("/")] loses nothing: joining the parts with "/" gives the
    text back; there is always at least one part and no part holds a "/". *)
Theorem split_slash_join (s : string) :
  join_slash (split_slash s) = s
  /\ split_slash s <> []
  /\ Forall (fun p => has_slash p = false) (split_slash s).
Proof.
  split; [|split; [apply split_slash_not_nil|]].
  - induction s as [|c s IH]; [reflexivity|]. cbn [split_slash].
    destruct (Ascii.eqb c "/") eqn:Hc.
    + apply Ascii.eqb_eq in Hc. subst c.
      rewrite join_slash_cons by apply split_slash_not_nil. rewrite IH. reflexivity.
    + destruct (split_slash s) as [|p ps] eqn:Hs; [destruct (split_slash_not_nil s Hs)|].
      rewrite join_slash_cons_char, IH. reflexivity.
  - induction s as [|c s IH]; [repeat constructor|]. cbn [split_slash].
    destruct (Ascii.eqb c "/") eqn:Hc.
    + constructor; [reflexivity|exact IH].
    + destruct (split_slash s) as [|p ps] eqn:Hs; [destruct (split_slash_not_nil s Hs)|].
      inversion IH as [|? ? Hp Hps]; subst. constructor; [|exact Hps].
      cbn. rewrite Hc, Hp. reflexivity.
Qed.

Lemma split_slash_plain (a : string) :
  has_slash a = false -> split_slash a = [a].
Proof.
  induction a as [|c a IH]; [reflexivity|]. intros Ha. cbn [has_slash] in Ha.
  cbn [split_slash]. destruct (Ascii.eqb c "/"); [discriminate|].
  rewrite IH by exact Ha. reflexivity.
Qed.

Lemma split_slash_prefix (a s : string) :
  has_slash a = false ->
  split_slash (a ++ String "/"%char s) = a :: split_slash s.
Proof.
  induction a as [|c a IH]; [reflexivity|]. intros Ha. cbn [has_slash] in Ha.
  change (split_slash (String c (a ++ String "/"%char s)) = String c a :: split_slash s).
  cbn [split_slash]. destruct (Ascii.eqb c "/"); [discriminate|].
  rewrite IH by exact Ha. reflexivity.
Qed.

Lemma has_slash_app (a s : string) :
  has_slash (a ++ s) = has_slash a || has_slash s.
Proof.
  induction a as [|c a IH]; [reflexivity|].
  change (has_slash (String c (a ++ s)) = has_slash (String c a) || has_slash s).
  cbn [has_slash]. rewrite IH, orb_assoc. reflexivity.
Qed.

Lemma has_slash_join (a b : string) (more : list string) :
  has_slash a = false -> has_slash (join_slash (a :: b :: more)) = true.
Proof.
  intros Ha. rewrite join_slash_cons by discriminate.
  rewrite has_slash_app, Ha. reflexivity.
Qed.

Lemma split_of_join (parts : list string) :
  parts <> [] ->
  Forall (fun p => has_slash p = false) parts ->
  split_slash (join_slash parts) = parts.
Proof.
  induction parts as [|p rest IH]; [congruence|]. intros _ Hall.
  inversion Hall as [|? ? Hp Hrest]; subst.
  destruct rest as [|q rest].
  - apply split_slash_plain. exact Hp.
  - rewrite join_slash_cons by discriminate.
    rewrite split_slash_prefix by exact Hp.
    rewrite IH; [reflexivity|discriminate|exact Hrest].
Qed.

(** X5: splitting undoes joining: parts without a "/", at least one of
    them, come back from the joined text as they were. *)
Theorem join_slash_split (parts : list string) :
  parts <> [] ->
  Forall (fun p => has_slash p = false) parts ->
  split_slash (join_slash parts) = parts.
Proof. exact (split_of_join parts). Qed.

(** X6: for a boot resource named "a/b", or "a/b/..." with more parts, the
    OS type shown is [a] and the release is [b]; the attributes [osystem]
    and [distro_series] of the resource play no part. *)
Theorem distro_of_slashed_name (res : Resource) (a b : string) (more : list string) :
  has_slash a = false ->
  has_slash b = false ->
  Forall (fun p => has_slash p = false) more ->
  res_name res = Some (join_slash (a :: b :: more)) ->
  distro_of res = (a, b).
Proof.
  intros Ha Hb Hmore Hname. unfold distro_of. rewrite Hname.
  change (default "-" (Some (join_slash (a :: b :: more))))
    with (join_slash (a :: b :: more)).
  rewrite has_slash_join by exact Ha.
  rewrite split_of_join; [reflexivity|discriminate|].
  repeat constructor; assumption.
Qed.

(** X7: for a boot resource whose name has no "/", or that has no name,
    the OS type is its [osystem] when that is set, and then the release
    stays "-" whatever [distro_series] holds; the release is taken from
    [distro_series] only when [osystem] is missing or empty. *)
Theorem distro_of_plain_name (res : Resource) :
  (res_name res = None \/ exists n, res_name res = Some n /\ has_slash n = false) ->
  (forall o, res_osystem res = Some o -> o <> "" -> distro_of res = (o, "-"))
  /\ (opt_truthy (res_osystem res) = false ->
      forall d, res_distro_series res = Some d -> d <> "" -> distro_of res = ("-", d))
  /\ (opt_truthy (res_osystem res) = false ->
      opt_truthy (res_distro_series res) = false ->
      distro_of res = ("-", "-")).
Proof.
  intros Hname.
  assert (Hplain : has_slash (default "-" (res_name res)) = false).
  { destruct Hname as [->|(n & -> & Hn)]; [reflexivity|exact Hn]. }
  unfold distro_of. rewrite Hplain.
  split; [|split].
  - intros o -> Ho. destruct o; [congruence|reflexivity].
  - intros -> d -> Hd. destruct d; [congruence|reflexivity].
  - intros -> ->. reflexivity.
Qed.

Lemma log_each_run {A} (f : A -> Msg) (l : list A) (log_file : option string) (w : W) :
  log_each f l log_file w = (Done tt, w, rows_trace f l log_file).
Proof.
  induction l as [|x l IH]; [reflexivity|]. cbn [log_each].
  unfold rows_trace. cbn [flat_map].
  eapply bind_done; [apply log_run|exact IH].
Qed.

(** X8: [list_machines] makes one remote call, the listing; it returns the
    machines as listed and logs the header, the rule and then one row per
    machine in the order of the listing.  When the listing raises, nothing
    is logged. *)
Theorem list_machines_run (log_file : option string) (w w1 : W) :
  (forall ms,
      machines_list w = (inr ms, w1) ->
      list_machines log_file w
      = (Done ms, w1,
         EList :: log_trace MsgListHeader log_file
           ++ log_trace MsgListRule log_file
           ++ rows_trace MsgListRow ms log_file))
  /\ (forall e,
        machines_list w = (inl e, w1) ->
        list_machines log_file w = (Raise e, w1, [EList])).
Proof.
  split.
  - intros ms Hl. unfold list_machines.
    change (EList :: ?t) with ([EList] ++ t).
    eapply bind_done; [apply call_returns; exact Hl|].
    eapply bind_done; [apply log_run|].
    eapply bind_done; [apply log_run|].
    rewrite <- (app_nil_r (rows_trace _ _ _)).
    eapply bind_done; [apply log_each_run|reflexivity].
  - intros e Hl. unfold list_machines. apply bind_raise.
    apply call_raises. exact Hl.
Qed.

End ListingFacts.

(** ** Looking a machine up *)

Section QueryFacts.
Context {W : Type} `{Client W}.

Lemma find_hostname_first (host : string) (before after : list Machine) (m0 : Machine) :
  hostname m0 = host ->
  Forall (fun x => hostname x <> host) before ->
  List.find (fun x => String.eqb (hostname x) host) (before ++ m0 :: after) = Some m0.
Proof.
  intros Hn Hb. apply find_some_split. exists before, after.
  split; [reflexivity|]. split; [apply String.eqb_eq; exact Hn|].
  eapply Forall_impl; [exact Hb|]. intros x Hx. apply String.eqb_neq. exact Hx.
Qed.

Lemma find_hostname_none (host : string) (ms : list Machine) :
  Forall (fun x => hostname x <> host) ms ->
  List.find (fun x => String.eqb (hostname x) host) ms = None.
Proof.
  intros Hall. apply find_none_all.
  eapply Forall_impl; [exact Hall|]. intros x Hx. apply String.eqb_neq. exact Hx.
Qed.

Lemma query_machine_missing (host : string) (log_file : option string)
    (quiet : bool) (w w1 : W) (ms : list Machine) :
  machines_list w = (inr ms, w1) ->
  Forall (fun x => hostname x <> host) ms ->
  query_machine host log_file quiet w
  = (Done None, w1, EList :: log_trace (MsgQueryNotFound host) log_file).
Proof.
  intros Hl Hall. unfold query_machine.
  change (EList :: ?t) with ([EList] ++ t).
  eapply bind_done; [apply call_returns; exact Hl|].
  rewrite (find_hostname_none host ms Hall).
  rewrite <- (app_nil_r (log_trace _ _)).
  eapply bind_done; [apply log_run|reflexivity].
Qed.

Lemma query_machine_quiet (host : string) (log_file : option string)
    (w w1 w2 : W) (ms : list Machine) (m0 m : Machine) :
  machines_list w = (inr ms, w1) ->
  List.find (fun x => String.eqb (hostname x) host) ms = Some m0 ->
  machines_get (system_id m0) w1 = (inr m, w2) ->
  query_machine host log_file true w
  = (Done (Some m), w2, [EList; EGet (system_id m0)]).
Proof.
  intros Hl Hf Hg. unfold query_machine.
  change [EList; EGet (system_id m0)] with ([EList] ++ [EGet (system_id m0)] ++ [] ++ []).
  eapply bind_done; [apply call_returns; exact Hl|]. rewrite Hf.
  eapply bind_done; [apply call_returns; exact Hg|].
  eapply bind_done; reflexivity.
Qed.

(** X10: when no listed machine has the host name, [query_machine] returns
    nothing and fetches no machine; it logs the not-found message, and does
    so in quiet mode too. *)
Theorem query_machine_not_found (host : string) (log_file : option string)
    (quiet : bool) (w w1 : W) (ms : list Machine) :
  machines_list w = (inr ms, w1) ->
  Forall (fun x => hostname x <> host) ms ->
  query_machine host log_file quiet w
  = (Done None, w1, EList :: log_trace (MsgQueryNotFound host) log_file)
  /\ List.filter is_get (trace_of (query_machine host log_file quiet w)) = [].
Proof.
  intros Hl Hall.
  pose proof (query_machine_missing host log_file quiet w w1 ms Hl Hall) as Hrun.
  split; [exact Hrun|]. rewrite Hrun. unfold trace_of. cbn [snd].
  apply silent_filter. constructor; [reflexivity|].
  apply log_trace_quiet; intros; reflexivity.
Qed.

(** X11: [query_machine] acts on the first listed machine with the host
    name: it fetches that machine by its system id and returns the fetched
    record, not the listed one; the details are logged unless quiet.  When
    the fetch raises, the error leaves [query_machine] and nothing is
    logged. *)
Theorem query_machine_fetches_first (host : string) (log_file : option string)
    (quiet : bool) (w w1 w2 : W) (before after : list Machine) (m0 : Machine) :
  machines_list w = (inr (before ++ m0 :: after), w1) ->
  hostname m0 = host ->
  Forall (fun x => hostname x <> host) before ->
  (forall m,
      machines_get (system_id m0) w1 = (inr m, w2) ->
      query_machine host log_file quiet w
      = (Done (Some m), w2,
         if quiet then [EList; EGet (system_id m0)] else query_trace m0 m log_file))
  /\ (forall e,
        machines_get (system_id m0) w1 = (inl e, w2) ->
        query_machine host log_file quiet w
        = (Raise e, w2, [EList; EGet (system_id m0)])).
Proof.
  intros Hl Hn Hb.
  pose proof (find_hostname_first host before after m0 Hn Hb) as Hf.
  split.
  - intros m Hg. destruct quiet.
    + eapply query_machine_quiet; eassumption.
    + eapply query_machine_found; eassumption.
  - intros e Hg. unfold query_machine.
    change [EList; EGet (system_id m0)] with ([EList] ++ [EGet (system_id m0)]).
    eapply bind_done; [apply call_returns; exact Hl|]. rewrite Hf.
    apply bind_raise. apply call_raises. exact Hg.
Qed.

(** X12: [get_status] returns the status of the freshly fetched machine
    and logs one line, the current status, without the details; for an
    unknown host it returns nothing after the not-found message. *)
Theorem get_status_run (host : string) (log_file : option string)
    (w w1 : W) (ms : list Machine) :
  machines_list w = (inr ms, w1) ->
  (forall before m0 after m w2,
      ms = before ++ m0 :: after ->
      hostname m0 = host ->
      Forall (fun x => hostname x <> host) before ->
      machines_get (system_id m0) w1 = (inr m, w2) ->
      get_status host log_file w
      = (Done (Some (status_name m)), w2,
         [EList; EGet (system_id m0)]
           ++ log_trace (MsgCurrentStatus host (status_name m)) log_file))
  /\ (Forall (fun x => hostname x <> host) ms ->
      get_status host log_file w
      = (Done None, w1, EList :: log_trace (MsgQueryNotFound host) log_file)).
Proof.
  intros Hl. split.
  - intros before m0 after m w2 Heq Hn Hb Hg. unfold get_status.
    eapply bind_done.
    + eapply query_machine_quiet; [exact Hl| |exact Hg].
      rewrite Heq. apply find_hostname_first; assumption.
    + rewrite <- (app_nil_r (log_trace _ _)).
      eapply bind_done; [apply log_run|reflexivity].
  - intros Hall. unfold get_status.
    rewrite <- (app_nil_r (EList :: _)).
    eapply bind_done; [eapply query_machine_missing; eassumption|reflexivity].
Qed.
End QueryFacts.

(** ** More on the selector *)

Section SelectorSafety.
Context {W : Type} `{Client W}.
Variable fromisoformat : string -> option datetime.
Variable fromtimestamp : Z -> option datetime.

Local Abbreviation extract' := (extract_timestamp fromisoformat fromtimestamp).
Local Abbreviation candidate' := (candidate_of fromisoformat fromtimestamp).
Local Abbreviation select := (select_last_deployed fromisoformat fromtimestamp).

Lemma select_cases (ms : list Machine) :
  (omap candidate' ms = [] /\ select ms = inr (List.find is_deployed ms))
  \/ (exists c cs sorted,
        omap candidate' ms = c :: cs
        /\ ((all_comparable (map fst (c :: cs)) = true
             /\ exists best, sort_desc (c :: cs) = best :: sorted
                             /\ In best (c :: cs)
                             /\ select ms = inr (Some (snd best)))
            \/ (all_comparable (map fst (c :: cs)) = false
                /\ select ms = inl TypeError))).
Proof.
  unfold select_last_deployed. rewrite candidates_spec.
  destruct (omap candidate' ms) as [|c cs] eqn:Hcs; [left; auto|].
  right. exists c, cs.
  destruct (sort_desc_head c cs) as (c1 & best & c2 & sorted & Heq & Hs & _ & _).
  exists sorted. split; [reflexivity|].
  unfold list_sort_reverse.
  destruct (all_comparable (map fst (c :: cs))) eqn:Hall; [left|right; auto].
  split; [reflexivity|]. exists best. rewrite Hs.
  split; [reflexivity|]. split; [|reflexivity].
  rewrite Heq. apply in_or_app. right. left. reflexivity.
Qed.

Lemma all_comparable_false (l : list datetime) :
  all_comparable l = false <->
  exists a b, In a l /\ In b l /\ aware a <> aware b.
Proof.
  split.
  - destruct l as [|d rest]; [discriminate|]. cbn. intros Hf.
    assert (Hex : exists b, In b rest /\ comparable d b = false).
    { clear -Hf. induction rest as [|b rest IH]; [discriminate|]. cbn in Hf.
      destruct (comparable d b) eqn:Hc.
      - destruct (IH Hf) as (b' & Hin & Hb'). exists b'. split; [right|]; assumption.
      - exists b. split; [left; reflexivity|exact Hc]. }
    destruct Hex as (b & Hin & Hc). exists d, b.
    split; [left; reflexivity|]. split; [right; exact Hin|].
    unfold comparable in Hc.
    destruct (aware d), (aware b); cbn in Hc; congruence.
  - intros (a & b & Ha & Hb & Hne).
    destruct (all_comparable l) eqn:Hall; [|reflexivity]. exfalso.
    destruct l as [|d rest]; [destruct Ha|]. cbn in Hall.
    rewrite forallb_forall in Hall.
    assert (Hd : forall x, In x (d :: rest) -> aware x = aware d).
    { intros x [<-|Hx]; [reflexivity|]. specialize (Hall x Hx).
      unfold comparable in Hall.
      destruct (aware d), (aware x); cbn in Hall; congruence. }
    apply Hne. rewrite (Hd a Ha), (Hd b Hb). reflexivity.
Qed.

(** X13: whatever the timestamps are, a machine that
    [find_last_deployed_machine] returns is one of the listed machines and
    its status is "deployed" up to letter case; it returns nothing exactly
    when no listed machine has that status; it makes no remote call besides
    the listing. *)
Theorem find_last_deployed_sound (w w1 : W) (ms : list Machine) :
  machines_list w = (inr ms, w1) ->
  (forall m,
      result_of (find_last_deployed_machine fromisoformat fromtimestamp w)
      = Done (Some m) ->
      In m ms /\ Str.lower (status_name m) = "deployed")
  /\ (result_of (find_last_deployed_machine fromisoformat fromtimestamp w) = Done None
      <-> Forall (fun m => Str.lower (status_name m) <> "deployed") ms)
  /\ trace_of (find_last_deployed_machine fromisoformat fromtimestamp w) = [EList]
  /\ world_of (find_last_deployed_machine fromisoformat fromtimestamp w) = w1.
Proof.
  intros Hl. rewrite (find_last_deployed_run fromisoformat fromtimestamp w w1 ms Hl).
  unfold result_of, trace_of, world_of. cbn [fst snd].
  split; [|split; [|split; reflexivity]].
  - intros m Hm.
    destruct (select_cases ms) as [[_ Hsel]|(c & cs & sorted & Hcs & [(_ & best & _ & Hin & Hsel)|(_ & Hsel)])];
      rewrite Hsel in Hm; [| |discriminate].
    + injection Hm as Hfind. apply find_some_split in Hfind as (b & a & -> & Hd & _).
      split; [apply in_or_app; right; left; reflexivity|].
      apply is_deployed_spec. exact Hd.
    + injection Hm as <-. rewrite <- Hcs in Hin.
      apply (in_candidates fromisoformat fromtimestamp) in Hin as (Hin & Hd & _).
      split; [exact Hin|apply is_deployed_spec; exact Hd].
  - destruct (select_cases ms) as [[_ Hsel]|(c & cs & sorted & Hcs & [(_ & best & _ & Hin & Hsel)|(_ & Hsel)])];
      rewrite Hsel.
    + split.
      * intros [= Hfind]. apply find_none_all in Hfind.
        eapply Forall_impl; [exact Hfind|]. intros m. apply not_deployed_spec.
      * intros Hall. f_equal. apply find_none_all.
        eapply Forall_impl; [exact Hall|]. intros m. apply not_deployed_spec.
    + split; [discriminate|]. intros Hall. exfalso.
      rewrite <- Hcs in Hin.
      apply (in_candidates fromisoformat fromtimestamp) in Hin as (Hin & Hd & _).
      rewrite Forall_forall in Hall. apply list_elem_of_In in Hin.
      apply (Hall _ Hin). apply is_deployed_spec. exact Hd.
    + split; [discriminate|]. intros Hall. exfalso.
      assert (Hin : In c (omap candidate' ms)) by (rewrite Hcs; left; reflexivity).
      apply (in_candidates fromisoformat fromtimestamp) in Hin as (Hin & Hd & _).
      rewrite Forall_forall in Hall. apply list_elem_of_In in Hin.
      apply (Hall _ Hin). apply is_deployed_spec. exact Hd.
Qed.

(** X14: [find_last_deployed_machine] raises exactly when two deployed
    machines yield timestamps of which one is offset-naive and the other
    offset-aware, and what it raises then is [TypeError]. *)
Theorem find_last_deployed_raises_iff_mixed (w w1 : W) (ms : list Machine) :
  machines_list w = (inr ms, w1) ->
  ((exists e, result_of (find_last_deployed_machine fromisoformat fromtimestamp w)
              = Raise e)
   <-> exists m1 m2 t1 t2,
         In m1 ms /\ In m2 ms
         /\ Str.lower (status_name m1) = "deployed"
         /\ Str.lower (status_name m2) = "deployed"
         /\ extract' m1 timestamp_attrs = Some t1
         /\ extract' m2 timestamp_attrs = Some t2
         /\ aware t1 <> aware t2)
  /\ (forall e,
        result_of (find_last_deployed_machine fromisoformat fromtimestamp w) = Raise e ->
        e = TypeError).
Proof.
  intros Hl. rewrite (find_last_deployed_run fromisoformat fromtimestamp w w1 ms Hl).
  unfold result_of. cbn [fst].
  assert (Hmixed : forall c cs,
             omap candidate' ms = c :: cs ->
             (all_comparable (map fst (c :: cs)) = false <->
              exists m1 m2 t1 t2,
                In m1 ms /\ In m2 ms
                /\ Str.lower (status_name m1) = "deployed"
                /\ Str.lower (status_name m2) = "deployed"
                /\ extract' m1 timestamp_attrs = Some t1
                /\ extract' m2 timestamp_attrs = Some t2
                /\ aware t1 <> aware t2)).
  { intros c cs Hcs. rewrite all_comparable_false, <- Hcs. split.
    - intros (a & b & Ha & Hb & Hne).
      apply in_map_iff in Ha as (ca & <- & Ha). apply in_map_iff in Hb as (cb & <- & Hb).
      apply (in_candidates fromisoformat fromtimestamp) in Ha as (Hia & Hda & Hea).
      apply (in_candidates fromisoformat fromtimestamp) in Hb as (Hib & Hdb & Heb).
      exists (snd ca), (snd cb), (fst ca), (fst cb).
      repeat split; try assumption; apply is_deployed_spec; assumption.
    - intros (m1 & m2 & t1 & t2 & H1 & H2 & Hd1 & Hd2 & He1 & He2 & Hne).
      apply is_deployed_spec in Hd1, Hd2.
      exists t1, t2. repeat split; [| |exact Hne].
      + apply in_map_iff. exists (t1, m1). split; [reflexivity|].
        apply candidate_in; assumption.
      + apply in_map_iff. exists (t2, m2). split; [reflexivity|].
        apply candidate_in; assumption. }
  destruct (select_cases ms) as [[Hcs Hsel]|(c & cs & sorted & Hcs & [(Hall & best & _ & _ & Hsel)|(Hall & Hsel)])];
    rewrite Hsel.
  - split; [|intros e; discriminate]. split; [intros (e & He); discriminate|].
    intros (m1 & m2 & t1 & t2 & H1 & _ & Hd1 & _ & He1 & _).
    apply is_deployed_spec in Hd1.
    pose proof (candidate_in fromisoformat fromtimestamp ms m1 t1 H1 Hd1 He1) as Hin.
    rewrite Hcs in Hin. destruct Hin.
  - split; [|intros e; discriminate]. split; [intros (e & He); discriminate|].
    intros Hex. apply (Hmixed c cs Hcs) in Hex. congruence.
  - split; [|intros e [= <-]; reflexivity]. split.
    + intros _. apply (Hmixed c cs Hcs). exact Hall.
    + intros _. exists TypeError. reflexivity.
Qed.

Lemma omap_candidate_filter (ms : list Machine) :
  omap candidate' (List.filter is_deployed ms) = omap candidate' ms.
Proof.
  induction ms as [|m ms IH]; [reflexivity|]. cbn [List.filter].
  destruct (is_deployed m) eqn:Hd.
  - cbn -[extract_timestamp is_deployed]. rewrite IH. reflexivity.
  - cbn -[extract_timestamp is_deployed]. unfold candidate_of at 2. rewrite Hd. exact IH.
Qed.

Lemma find_deployed_filter (ms : list Machine) :
  List.find is_deployed (List.filter is_deployed ms) = List.find is_deployed ms.
Proof.
  induction ms as [|m ms IH]; [reflexivity|]. cbn.
  destruct (is_deployed m) eqn:Hd; cbn; rewrite ?Hd; [reflexivity|exact IH].
Qed.

(** X15: machines that are not deployed have no influence on the
    selection: a listing and the same listing without them give the same
    result. *)
Theorem find_last_deployed_ignores_others (w w1 v v1 : W) (ms : list Machine) :
  machines_list w = (inr ms, w1) ->
  machines_list v = (inr (List.filter is_deployed ms), v1) ->
  result_of (find_last_deployed_machine fromisoformat fromtimestamp v)
  = result_of (find_last_deployed_machine fromisoformat fromtimestamp w).
Proof.
  intros Hw Hv.
  rewrite (find_last_deployed_run fromisoformat fromtimestamp w w1 ms Hw).
  rewrite (find_last_deployed_run fromisoformat fromtimestamp v v1 _ Hv).
  unfold result_of. cbn [fst].
  unfold select_last_deployed.
  rewrite !candidates_spec, omap_candidate_filter, find_deployed_filter. reflexivity.
Qed.
End SelectorSafety.

(** ** More on release and the status waiter *)

Section WaiterSafety.
Context {W : Type} `{Client W}.

(** X16: [release_machine] issues the release call exactly for a machine
    whose status is "deployed" up to letter case: for any other status it
    does nothing at all, and an error of the release call leaves it
    unhandled. *)
Theorem release_machine_guard (m : Machine) (w : W) :
  (Str.lower (status_name m) <> "deployed" ->
   release_machine m w = (Done tt, w, []))
  /\ (Str.lower (status_name m) = "deployed" ->
      forall r w1,
        machine_release m w = (r, w1) ->
        release_machine m w
        = (match r with inr _ => Done tt | inl e => Raise e end, w1,
           [EPrint (MsgReleasing (hostname m)); ERelease (system_id m)])).
Proof.
  split.
  - intros Hd. unfold release_machine.
    replace (is_deployed m) with false; [reflexivity|].
    symmetry. apply not_deployed_spec. exact Hd.
  - intros Hd r w1 Hr. unfold release_machine.
    replace (is_deployed m) with true by (symmetry; apply is_deployed_spec; exact Hd).
    unfold bind, print, emit, call. rewrite Hr. destruct r as [e|[]]; reflexivity.
Qed.

(** X17: an error of a status fetch is not turned into [False]: after any
    number of polls that did not match, [wait_for_status] raises what the
    fetch raised. *)
Theorem wait_for_status_fetch_error (sysid expected : string) (timeout : Z)
    (w w0 w1 w2 w3 : W) (start t : Z) (n : nat) (e : exn) (fuel : nat) :
  time_time w = (start, w0) ->
  idle_polls start timeout sysid expected n w0 w1 ->
  time_time w1 = (t, w2) ->
  t - start < timeout ->
  machines_get sysid w2 = (inl e, w3) ->
  (n < fuel)%nat ->
  wait_for_status fuel sysid expected timeout w
  = (Raise e, w3, idle_trace sysid n ++ [EGet sysid]).
Proof.
  intros Hstart Hidle Ht Hin Hget Hfuel. unfold wait_for_status.
  rewrite (bind_now _ w w0 start Hstart).
  replace fuel with (n + S (fuel - n - 1))%nat by lia.
  eapply wait_loop_idle; [exact Hidle|].
  cbn [wait_loop]. rewrite (bind_now _ w1 w2 t Ht).
  replace (t - start <? timeout) with true by (symmetry; apply Z.ltb_lt; exact Hin).
  apply bind_raise. apply call_raises. exact Hget.
Qed.

Lemma wait_loop_turn (sysid expected : string) (timeout start t : Z)
    (fuel : nat) (w w1 w2 : W) (m : Machine) :
  time_time w = (t, w1) ->
  (t - start <? timeout) = true ->
  machines_get sysid w1 = (inr m, w2) ->
  Str.eq_nocase (status_name m) expected = false ->
  wait_loop (S fuel) start sysid expected timeout w
  = (let '(r, w', tr) := wait_loop fuel start sysid expected timeout (sleep 10 w2) in
     (r, w', EGet sysid :: ESleep 10 :: tr)).
Proof.
  intros Ht Htest Hg Hm. cbn [wait_loop]. rewrite (bind_now _ w w1 t Ht), Htest.
  unfold bind at 1. rewrite (call_returns _ _ _ _ _ Hg), Hm.
  unfold bind at 1, do_sleep at 1.
  destruct (wait_loop fuel start sysid expected timeout (sleep 10 w2)) as [[r w3] t3].
  reflexivity.
Qed.

Lemma wait_loop_bounded (clk : W -> Z) (sysid expected : string) (timeout start : Z) :
  steady_clock clk ->
  forall (k fuel : nat) (w : W),
    timeout - (clk w - start) <= 10 * Z.of_nat k ->
    (k <= fuel)%nat ->
    result_of (wait_loop fuel start sysid expected timeout w) <> OutOfFuel
    /\ (fetches (wait_loop fuel start sysid expected timeout w) <= k)%nat.
Proof.
  intros [Hread Hget Hsleep].
  induction k as [|k IH]; intros fuel w Hrem Hfuel.
  - destruct (time_time w) as [t w1] eqn:Ht.
    destruct (Hread w t w1 Ht) as [-> Hmono].
    rewrite (wait_loop_expired sysid expected timeout fuel start (clk w) w w1 Ht)
      by lia.
    split; [discriminate|apply Nat.le_refl].
  - destruct (time_time w) as [t w1] eqn:Ht.
    destruct (Hread w t w1 Ht) as [-> Hmono].
    destruct (clk w - start <? timeout) eqn:Htest.
    2:{ apply Z.ltb_ge in Htest.
        rewrite (wait_loop_expired sysid expected timeout fuel start (clk w) w w1 Ht)
          by lia.
        split; [discriminate|cbn; lia]. }
    destruct fuel as [|fuel]; [lia|].
    destruct (machines_get sysid w1) as [[e|m] w2] eqn:Hg.
    + cbn [wait_loop]. rewrite (bind_now _ w w1 _ Ht), Htest.
      rewrite (bind_raise _ _ _ _ _ _ (call_raises _ _ _ _ _ Hg)).
      split; [discriminate|cbn; lia].
    + pose proof (Hget sysid w1 _ w2 Hg) as Hmono2.
      destruct (Str.eq_nocase (status_name m) expected) eqn:Hm.
      * apply eq_nocase_true in Hm. apply Z.ltb_lt in Htest.
        rewrite (wait_loop_match sysid expected timeout fuel start (clk w) w w1 w2 m
                   Ht Htest Hg Hm).
        split; [discriminate|cbn; lia].
      * rewrite (wait_loop_turn sysid expected timeout start (clk w) fuel w w1 w2 m
                   Ht Htest Hg Hm).
        pose proof (Hsleep 10 w2) as Hadv.
        destruct (IH fuel (sleep 10 w2)) as [Hres Hcount]; [lia|lia|].
        unfold fetches, trace_of, result_of in *.
        destruct (wait_loop fuel start sysid expected timeout (sleep 10 w2))
          as [[r w3] t3].
        cbn in *. split; [exact Hres|lia].
Qed.

(** X18: under a steady clock [wait_for_status] ends, and it fetches the
    machine at most once per ten seconds of timeout: with fuel for
    [ceil(timeout / 10)] turns the run is never cut short and makes at most
    that many fetches (90 for the default of 900 seconds). *)
Theorem wait_for_status_bounded (clk : W -> Z) (sysid expected : string)
    (timeout : Z) (fuel : nat) (w : W) :
  steady_clock clk ->
  (Z.to_nat ((timeout + 9) / 10) <= fuel)%nat ->
  result_of (wait_for_status fuel sysid expected timeout w) <> OutOfFuel
  /\ (fetches (wait_for_status fuel sysid expected timeout w)
      <= Z.to_nat ((timeout + 9) / 10))%nat.
Proof.
  intros Hclk Hfuel. unfold wait_for_status.
  destruct (time_time w) as [start w0] eqn:Ht.
  rewrite (bind_now _ w w0 start Ht).
  destruct (clock_read clk Hclk w start w0 Ht) as [-> Hmono].
  apply (wait_loop_bounded clk sysid expected timeout (clk w) Hclk); [|exact Hfuel].
  pose proof (Z.mul_succ_div_gt (timeout + 9) 10 ltac:(lia)) as Hq.
  set (q := (timeout + 9) / 10) in *. lia.
Qed.

(** X19: [wait_for_status] only reads: every event of a run is a fetch of
    the given machine, a sleep of ten seconds or a printed line.  It never
    lists, releases or deploys. *)
Theorem wait_for_status_only_polls (sysid expected : string) (timeout : Z)
    (fuel : nat) (w : W) :
  Forall (waiter_event sysid)
    (trace_of (wait_for_status fuel sysid expected timeout w)).
Proof.
  pose proof (wait_for_status_silent (not_waiter_event sysid) fuel sysid expected
                timeout) as Hs.
  eapply Forall_impl; [apply Hs|].
  - cbn. rewrite String.eqb_refl. reflexivity.
  - reflexivity.
  - reflexivity.
  - intros [] Hn; cbn in Hn; try discriminate; unfold waiter_event.
    + left. f_equal. apply String.eqb_eq.
      destruct (String.eqb sysid0 sysid); [reflexivity|discriminate].
    + right. left. f_equal. apply Z.eqb_eq.
      destruct (seconds =? 10); [reflexivity|discriminate].
    + right. right. eauto.
Qed.
End WaiterSafety.

(** ** More on deploy_machine *)

Section DeployFacts.
Context {W : Type} `{Client W}.

Lemma existsb_non_deployable (s : string) :
  existsb (String.eqb s) non_deployable = true <-> In s non_deployable.
Proof.
  rewrite existsb_exists. split.
  - intros (x & Hin & Heq). apply String.eqb_eq in Heq. subst. exact Hin.
  - intros Hin. exists s. split; [exact Hin|apply String.eqb_refl].
Qed.

(** What [deploy_machine] does once the listing answered and the lookup
    found [m]. *)
Lemma deploy_machine_found (who : name_arg) (os log_file : option string)
    (w w1 : W) (ms : list Machine) (m : Machine) :
  machines_list w = (inr ms, w1) ->
  List.find (hostname_is who) ms = Some m ->
  deploy_machine who os log_file w
  = if String.eqb (Str.lower (status_name m)) "deployed" then
      (Done tt, w1, EList :: log_trace (MsgInfoAlreadyDeployed who m) log_file)
    else if existsb (String.eqb (Str.lower (status_name m))) non_deployable then
      (Done tt, w1,
       EList :: log_trace (MsgErrNonDeployable who (status_name m)) log_file)
    else
      match machine_deploy m os w1 with
      | (inr _, w2) =>
          (Done tt, w2,
           EList :: log_trace (MsgActionDeploying who os (system_id m)) log_file
             ++ [EDeploy (system_id m) os]
             ++ log_trace (MsgDeployTriggered who os) log_file)
      | (inl e, w2) =>
          if is_Exception e then
            (Done tt, w2,
             EList :: log_trace (MsgActionDeploying who os (system_id m)) log_file
               ++ [EDeploy (system_id m) os]
               ++ log_trace (MsgErrDeployFailed who e) log_file)
          else
            (Raise e, w2,
             EList :: log_trace (MsgActionDeploying who os (system_id m)) log_file
               ++ [EDeploy (system_id m) os])
      end.
Proof.
  intros Hl Hf. unfold deploy_machine, try_except, bind at 1, call at 1.
  rewrite Hl, Hf. cbv zeta.
  destruct (String.eqb (Str.lower (status_name m)) "deployed");
    [rewrite log_run; reflexivity|].
  destruct (existsb _ non_deployable); [rewrite log_run; reflexivity|].
  unfold bind, call. rewrite log_run.
  destruct (machine_deploy m os w1) as [[e|[]] w2].
  - destruct (is_Exception e); [|reflexivity].
    rewrite log_run, <- !app_assoc. reflexivity.
  - rewrite log_run. reflexivity.
Qed.

Lemma deploy_machine_lookup_fails (who : name_arg) (os log_file : option string)
    (w w1 : W) (ms : list Machine) :
  machines_list w = (inr ms, w1) ->
  List.find (hostname_is who) ms = None ->
  deploy_machine who os log_file w
  = (Done tt, w1, EList :: log_trace (MsgErrNotFound who) log_file).
Proof.
  intros Hl Hf. unfold deploy_machine, try_except, bind, call.
  rewrite Hl, Hf, log_run. reflexivity.
Qed.

Lemma deploy_machine_listing_fails (who : name_arg) (os log_file : option string)
    (w w1 : W) (e : exn) :
  machines_list w = (inl e, w1) ->
  deploy_machine who os log_file w
  = if is_Exception e
    then (Done tt, w1, EList :: log_trace (MsgErrDeployFailed who e) log_file)
    else (Raise e, w1, [EList]).
Proof.
  intros Hl. unfold deploy_machine, try_except, bind, call. rewrite Hl.
  destruct (is_Exception e); [rewrite log_run|]; reflexivity.
Qed.


Lemma find_by_name_first (name : string) (before after : list Machine) (m : Machine) :
  hostname m = name ->
  Forall (fun x => hostname x <> name) before ->
  List.find (hostname_is (ByName name)) (before ++ m :: after) = Some m.
Proof.
  intros Hn Hb. apply find_some_split. exists before, after.
  split; [reflexivity|]. split; [apply String.eqb_eq; exact Hn|].
  eapply Forall_impl; [exact Hb|]. intros x Hx. apply String.eqb_neq. exact Hx.
Qed.

Lemma deployable_tests (m : Machine) :
  deployable m ->
  String.eqb (Str.lower (status_name m)) "deployed" = false
  /\ existsb (String.eqb (Str.lower (status_name m))) non_deployable = false.
Proof.
  intros [Hd Hn]. split; [apply String.eqb_neq; exact Hd|].
  destruct (existsb _ non_deployable) eqn:He; [|reflexivity].
  apply existsb_non_deployable in He. contradiction.
Qed.

(** X21: for the first listed machine with the given host name, when its
    status is neither "deployed" nor non-deployable, [deploy_machine]
    issues one deploy call, for that machine and with the OS label it was
    given ([None] when [--os] is absent).  When the call returns, the
    success line is logged; when it raises an [Exception], the failure is
    logged instead and [deploy_machine] returns normally. *)
Theorem deploy_machine_deploys (name : string) (os log_file : option string)
    (w w1 w2 : W) (before after : list Machine) (m : Machine) :
  machines_list w = (inr (before ++ m :: after), w1) ->
  hostname m = name ->
  Forall (fun x => hostname x <> name) before ->
  deployable m ->
  (machine_deploy m os w1 = (inr tt, w2) ->
   deploy_machine (ByName name) os log_file w
   = (Done tt, w2,
      EList :: log_trace (MsgActionDeploying (ByName name) os (system_id m)) log_file
        ++ [EDeploy (system_id m) os]
        ++ log_trace (MsgDeployTriggered (ByName name) os) log_file))
  /\ (forall e,
        machine_deploy m os w1 = (inl e, w2) ->
        is_Exception e = true ->
        deploy_machine (ByName name) os log_file w
        = (Done tt, w2,
           EList :: log_trace (MsgActionDeploying (ByName name) os (system_id m)) log_file
             ++ [EDeploy (system_id m) os]
             ++ log_trace (MsgErrDeployFailed (ByName name) e) log_file)).
Proof.
  intros Hl Hn Hb Hok.
  pose proof (find_by_name_first name before after m Hn Hb) as Hf.
  destruct (deployable_tests m Hok) as [Hd Hnd].
  rewrite (deploy_machine_found (ByName name) os log_file w w1 _ m Hl Hf), Hd, Hnd.
  split.
  - intros ->. reflexivity.
  - intros e -> ->. reflexivity.
Qed.

(** X22: [deploy_machine] deploys at most once, and only what it may: a
    deploy call in its trace is for a listed machine that the lookup
    matches, whose status is neither "deployed" nor non-deployable, and it
    carries the OS label given.  It never releases. *)
Theorem deploy_machine_deploys_only_deployable (who : name_arg)
    (os log_file : option string) (w w1 : W) (ms : list Machine) :
  machines_list w = (inr ms, w1) ->
  (length (List.filter is_deploy (trace_of (deploy_machine who os log_file w))) <= 1)%nat
  /\ (forall sid os',
        In (EDeploy sid os') (trace_of (deploy_machine who os log_file w)) ->
        os' = os
        /\ exists m,
             In m ms /\ hostname_is who m = true /\ system_id m = sid
             /\ deployable m)
  /\ List.filter is_release (trace_of (deploy_machine who os log_file w)) = [].
Proof.
  intros Hl.
  assert (Hquiet : forall msg, List.filter is_deploy (log_trace msg log_file) = []).
  { intros msg. apply silent_filter. apply log_trace_quiet; intros; reflexivity. }
  assert (Hnot : forall msg sid os', ~ In (EDeploy sid os') (log_trace msg log_file)).
  { intros msg sid os' Hin.
    pose proof (log_trace_quiet is_deploy msg log_file eq_refl (fun _ => eq_refl)) as Hq.
    rewrite Forall_forall in Hq. apply list_elem_of_In in Hin.
    specialize (Hq _ Hin). discriminate Hq. }
  split; [|split; [|apply silent_filter; apply deploy_machine_no_release]].
  - assert (Hcount : forall (A : Type) (r : outcome A) (v : W) (t : list Event),
               (length (List.filter is_deploy t) <= 1)%nat ->
               (length (List.filter is_deploy (trace_of (r, v, EList :: t))) <= 1)%nat).
    { intros A r v t Ht. exact Ht. }
    destruct (List.find (hostname_is who) ms) as [m|] eqn:Hf.
    + rewrite (deploy_machine_found who os log_file w w1 ms m Hl Hf).
      destruct (String.eqb _ "deployed"); [apply Hcount; rewrite Hquiet; cbn; lia|].
      destruct (existsb _ non_deployable); [apply Hcount; rewrite Hquiet; cbn; lia|].
      destruct (machine_deploy m os w1) as [[e|[]] w2];
        [destruct (is_Exception e)|];
        apply Hcount; rewrite !List.filter_app, ?Hquiet; cbn; lia.
    + rewrite (deploy_machine_lookup_fails who os log_file w w1 ms Hl Hf).
      apply Hcount. rewrite Hquiet. cbn. lia.
  - intros sid os' Hin.
    destruct (List.find (hostname_is who) ms) as [m|] eqn:Hf.
    + rewrite (deploy_machine_found who os log_file w w1 ms m Hl Hf) in Hin.
      assert (Hm : In m ms /\ hostname_is who m = true).
      { apply find_some_split in Hf as (b & a & -> & Hm & _).
        split; [apply in_or_app; right; left; reflexivity|exact Hm]. }
      destruct (String.eqb (Str.lower (status_name m)) "deployed") eqn:Hd.
      { destruct Hin as [Hin|Hin]; [discriminate|]. destruct (Hnot _ _ _ Hin). }
      destruct (existsb (String.eqb (Str.lower (status_name m))) non_deployable) eqn:Hnd.
      { destruct Hin as [Hin|Hin]; [discriminate|]. destruct (Hnot _ _ _ Hin). }
      assert (Hok : deployable m).
      { split; [apply String.eqb_neq; exact Hd|].
        intros Hc. apply existsb_non_deployable in Hc. congruence. }
      assert (Hcase : In (EDeploy sid os')
                        (EList :: log_trace (MsgActionDeploying who os (system_id m)) log_file
                           ++ [EDeploy (system_id m) os])
                      \/ exists msg, In (EDeploy sid os') (log_trace msg log_file)).
      { destruct (machine_deploy m os w1) as [[e|[]] w2];
          [destruct (is_Exception e)|]; unfold trace_of in Hin; cbn [snd] in Hin.
        - rewrite app_comm_cons, !app_assoc in Hin. apply in_app_or in Hin as [Hin|Hin].
          + left. rewrite app_comm_cons. exact Hin.
          + right. eauto.
        - left. exact Hin.
        - rewrite app_comm_cons, !app_assoc in Hin. apply in_app_or in Hin as [Hin|Hin].
          + left. rewrite app_comm_cons. exact Hin.
          + right. eauto. }
      destruct Hcase as [Hc|(msg & Hc)]; [|destruct (Hnot _ _ _ Hc)].
      destruct Hc as [Hc|Hc]; [discriminate|].
      apply in_app_or in Hc as [Hc|Hc]; [destruct (Hnot _ _ _ Hc)|].
      destruct Hc as [[= <- <-]|[]].
      split; [reflexivity|]. exists m. tauto.
    + rewrite (deploy_machine_lookup_fails who os log_file w w1 ms Hl Hf) in Hin.
      destruct Hin as [Hin|Hin]; [discriminate|]. destruct (Hnot _ _ _ Hin).
Qed.

(** X23: [deploy_machine] refuses with an error line and no deploy call
    when no listed machine has the host name, and when the machine found is
    in a non-deployable status: the line then shows the status as listed. *)
Theorem deploy_machine_refuses (name : string) (os log_file : option string)
    (w w1 : W) (ms : list Machine) :
  machines_list w = (inr ms, w1) ->
  (Forall (fun x => hostname x <> name) ms ->
   deploy_machine (ByName name) os log_file w
   = (Done tt, w1, EList :: log_trace (MsgErrNotFound (ByName name)) log_file))
  /\ (forall before m after,
        ms = before ++ m :: after ->
        hostname m = name ->
        Forall (fun x => hostname x <> name) before ->
        In (Str.lower (status_name m)) non_deployable ->
        deploy_machine (ByName name) os log_file w
        = (Done tt, w1,
           EList :: log_trace (MsgErrNonDeployable (ByName name) (status_name m))
                      log_file)).
Proof.
  intros Hl. split.
  - intros Hall. apply (deploy_machine_lookup_fails _ _ _ _ _ ms Hl).
    apply find_none_all. eapply Forall_impl; [exact Hall|].
    intros x Hx. apply String.eqb_neq. exact Hx.
  - intros before m after Heq Hn Hb Hst.
    rewrite (deploy_machine_found (ByName name) os log_file w w1 ms m Hl).
    + replace (String.eqb (Str.lower (status_name m)) "deployed") with false.
      * replace (existsb _ non_deployable) with true; [reflexivity|].
        symmetry. apply existsb_non_deployable. exact Hst.
      * symmetry. apply (not_deployed_when_non_deployable m Hst).
    + rewrite Heq. apply find_by_name_first; assumption.
Qed.
End DeployFacts.

(** ** More on redeploy *)

Section RedeployMore.
Context {W : Type} `{Client W}.

(** X24: for a host name that no listed machine has, [redeploy_machine]
    stops after the not-found message: no fetch, no release, no deploy, no
    wait. *)
Theorem redeploy_machine_unknown_host (fuel : nat) (host : string)
    (os_release log_file : option string) (w w1 : W) (ms : list Machine) :
  machines_list w = (inr ms, w1) ->
  Forall (fun x => hostname x <> host) ms ->
  redeploy_machine fuel host os_release log_file w
  = (Done tt, w1, EList :: log_trace (MsgQueryNotFound host) log_file).
Proof.
  intros Hl Hall. unfold redeploy_machine.
  rewrite <- (app_nil_r (EList :: _)).
  eapply bind_done; [eapply query_machine_missing; eassumption|reflexivity].
Qed.

Lemma redeploy_each_no_deploy (fuel : nat) (ms : list Machine)
    (os_release log_file : option string) :
  silent is_deploy (redeploy_each fuel ms os_release log_file : M W unit).
Proof.
  induction ms as [|m ms IH]; cbn [redeploy_each]; [apply silent_ret|].
  apply silent_bind; [apply redeploy_machine_no_deploy|]. intros _. exact IH.
Qed.

(** X25: no run of [redeploy_all] reaches a deploy call, whatever the
    listing, the statuses and the [--os] argument. *)
Theorem redeploy_all_never_deploys (fuel : nat) (os_release log_file : option string)
    (w : W) :
  List.filter is_deploy (trace_of (redeploy_all fuel os_release log_file w)) = [].
Proof.
  apply silent_filter. unfold redeploy_all.
  apply silent_bind; [auto with silent|]. intros ms. apply redeploy_each_no_deploy.
Qed.


Lemma silent_log_no_file (P : Event -> bool) (msg : Msg) :
  P (EPrint msg) = false -> silent P (log msg None : M W unit).
Proof. intros Hp w. repeat constructor. exact Hp. Qed.

Lemma deploy_machine_no_file_quiet (who : name_arg) (os : option string) :
  silent is_error_append (deploy_machine who os None : M W unit).
Proof.
  unfold deploy_machine.
  apply silent_try_except; [|intros; apply silent_log_no_file; reflexivity].
  apply silent_bind; [auto with silent|]. intros ms.
  destruct (List.find (hostname_is who) ms) as [machine|];
    [|apply silent_log_no_file; reflexivity].
  cbv zeta. destruct (String.eqb _ "deployed"); [apply silent_log_no_file; reflexivity|].
  destruct (existsb _ non_deployable); [apply silent_log_no_file; reflexivity|].
  apply silent_bind; [apply silent_log_no_file; reflexivity|]. intros _.
  apply silent_bind; [auto with silent|]. intros _.
  apply silent_log_no_file. reflexivity.
Qed.

Lemma redeploy_machine_no_error_append (fuel : nat) (host : string)
    (os_release log_file : option string) :
  silent is_error_append (redeploy_machine fuel host os_release log_file : M W unit).
Proof.
  unfold redeploy_machine.
  apply silent_bind; [unfold query_machine; auto 8 with silent|].
  intros [machine|]; [|apply silent_ret]. unfold redeploy_steps.
  apply silent_bind.
  - destruct (is_deployed machine); [|apply silent_ret].
    apply silent_bind.
    + unfold release_machine. destruct (is_deployed machine); auto with silent.
    + intros _. apply silent_bind; [|intros; apply silent_ret].
      apply wait_for_status_silent; reflexivity.
  - intros _. apply silent_bind; [apply deploy_machine_no_file_quiet|].
    intros _. apply silent_bind; [apply wait_for_status_silent; reflexivity|].
    intros _. apply silent_log; [reflexivity|intros; reflexivity].
Qed.

(** X27: the error lines of the deploy step never reach the log file
    during a redeploy: [redeploy_machine] calls [deploy_machine] without
    the log file, so whatever file it was given itself, no [[ERROR]] line is
    appended to it, by [redeploy_machine] or by [redeploy_all]. *)
Theorem redeploy_errors_not_in_log_file (fuel : nat) (host : string)
    (os_release log_file : option string) (w : W) :
  List.filter is_error_append
    (trace_of (redeploy_machine fuel host os_release log_file w)) = []
  /\ List.filter is_error_append
       (trace_of (redeploy_all fuel os_release log_file w)) = [].
Proof.
  split; apply silent_filter.
  - apply redeploy_machine_no_error_append.
  - unfold redeploy_all. apply silent_bind; [auto with silent|]. intros ms.
    induction ms as [|m ms IH]; cbn [redeploy_each]; [apply silent_ret|].
    apply silent_bind; [apply redeploy_machine_no_error_append|]. intros _. exact IH.
Qed.
End RedeployMore.

(** ** The entry point *)

Section MainFacts.
Context {W : Type} `{Client W}.
Variable fromisoformat : string -> option datetime.
Variable fromtimestamp : Z -> option datetime.
Variables url key : string.

Local Abbreviation main' := (main fromisoformat fromtimestamp).
Local Abbreviation script' := (script fromisoformat fromtimestamp).

Lemma connect_maas_first_try (w w1 : W) :
  connect url key w = (inr tt, w1) ->
  connect_maas url key 3 w = (Done tt, w1, [EConnect url key]).
Proof.
  intros Hc. unfold connect_maas.
  change (Z.to_nat 3) with 3%nat.
  assert (Hloop : connect_loop 3 1 3 url key w = (Done (Some tt), w1, [EConnect url key])).
  { rewrite connect_loop_step. rewrite <- (app_nil_r [EConnect url key]).
    eapply bind_done; [apply try_connect_returns; exact Hc|reflexivity]. }
  rewrite <- (app_nil_r [EConnect url key]).
  eapply bind_done; [exact Hloop|reflexivity].
Qed.

(** X28: an action that needs [--machine] and is run without it (or with
    an empty one) only connects and prints the usage line: it makes no call
    on the service, and the process ends with exit status 0. *)
Theorem main_without_machine (fuel : nat) (args : Args) (action : string)
    (w w1 : W) :
  connect url key w = (inr tt, w1) ->
  needs_machine (arg_action args) = Some action ->
  opt_truthy (arg_machine args) = false ->
  main' fuel url key args w
  = (Done tt, w1, [EConnect url key; EPrint (MsgPleaseSpecify action)])
  /\ script' fuel url key args w
     = (Some 0, w1, [EConnect url key; EPrint (MsgPleaseSpecify action)]).
Proof.
  intros Hc Hact Hm.
  assert (Hrun : main' fuel url key args w
                 = (Done tt, w1, [EConnect url key; EPrint (MsgPleaseSpecify action)])).
  { unfold main.
    change [EConnect url key; EPrint (MsgPleaseSpecify action)]
      with ([EConnect url key] ++ [EPrint (MsgPleaseSpecify action)]).
    eapply bind_done; [apply connect_maas_first_try; exact Hc|].
    cbv zeta. rewrite Hm.
    destruct (arg_action args); cbn in Hact; try discriminate;
      injection Hact as <-; reflexivity. }
  split; [exact Hrun|]. unfold script. rewrite Hrun. reflexivity.
Qed.

Lemma connect_maas_no_service_call (N : Z) :
  silent is_service_call (connect_maas url key N : M W unit).
Proof.
  unfold connect_maas. apply silent_bind.
  - generalize 1. induction (Z.to_nat N) as [|n IH]; intros attempt;
      cbn [connect_loop]; [apply silent_ret|].
    apply silent_bind.
    + unfold try_connect. apply silent_try_except; [auto with silent|].
      intros e. destruct (connect_handler attempt e); auto with silent.
    + intros [c|]; [apply silent_ret|].
      apply silent_bind; [unfold retry_pause; auto with silent|].
      intros _. apply IH.
  - intros [c|]; auto 8 with silent.
Qed.

(** X29: when the connection cannot be made, no action is begun: whatever
    the arguments, [main] leaves through [sys.exit(1)] without a single
    call on the machines or the catalogue. *)
Theorem main_unreachable_service_does_nothing (fuel : nat) (args : Args) (w : W) :
  attempts_fail url key 3 w ->
  exists w' t,
    main' fuel url key args w = (Raise (SystemExit 1), w', t)
    /\ List.filter is_service_call t = [].
Proof.
  intros Hfail.
  destruct (connect_maas_all_fail url key 3 w Hfail) as (w' & t & Hrun & _).
  exists w', t. split.
  - unfold main. apply bind_raise. exact Hrun.
  - apply silent_filter.
    pose proof (connect_maas_no_service_call 3 w) as Hs. rewrite Hrun in Hs. exact Hs.
Qed.
End MainFacts.

(** ** Which errors leave a computation *)

Section RaisesFacts.
Context {W : Type} `{Client W}.
Variable P : exn -> Prop.

Lemma raises_ret {A} (a : A) : raises_only P (ret a : M W A).
Proof. intros w e w1 t. discriminate. Qed.

Lemma raises_out_of_fuel {A} : raises_only P (out_of_fuel : M W A).
Proof. intros w e w1 t. discriminate. Qed.

Lemma raises_raise {A} (e : exn) : P e -> raises_only P (raise e : M W A).
Proof. intros He w e' w1 t [= <- _ _]. exact He. Qed.

Lemma raises_emit (ev : Event) : raises_only P (emit ev : M W unit).
Proof. intros w e w1 t. discriminate. Qed.

Lemma raises_now : raises_only P (now : M W Z).
Proof. intros w e w1 t. unfold now. destruct (time_time w). discriminate. Qed.

Lemma raises_do_sleep (d : Z) : raises_only P (do_sleep d : M W unit).
Proof. intros w e w1 t. discriminate. Qed.

Lemma raises_call {A} (ev : Event) (op : W -> (exn + A) * W) :
  (forall w e w1, op w = (inl e, w1) -> P e) -> raises_only P (call ev op).
Proof.
  intros Hop w e w1 t. unfold call. destruct (op w) as [[x|a] w2] eqn:Ho.
  - intros [= <- _ _]. exact (Hop w x w2 Ho).
  - discriminate.
Qed.

Lemma raises_bind {A B} (m : M W A) (f : A -> M W B) :
  raises_only P m -> (forall a, raises_only P (f a)) -> raises_only P (bind m f).
Proof.
  intros Hm Hf w e w1 t. unfold bind.
  destruct (m w) as [[[a|x|] w2] t2] eqn:Hmw.
  - destruct (f a w2) as [[r w3] t3] eqn:Hfa. intros [= -> _ _].
    exact (Hf a w2 e w3 t3 Hfa).
  - intros [= <- _ _]. exact (Hm w x w2 t2 Hmw).
  - discriminate.
Qed.

Lemma raises_try_except {A} (m : M W A) (sel : exn -> bool) (h : exn -> M W A) :
  raises_only P m -> (forall e, raises_only P (h e)) ->
  raises_only P (try_except m sel h).
Proof.
  intros Hm Hh w e w1 t. unfold try_except.
  destruct (m w) as [[[a|x|] w2] t2] eqn:Hmw; try discriminate.
  destruct (sel x).
  - destruct (h x w2) as [[r w3] t3] eqn:Hhx. intros [= -> _ _].
    exact (Hh x w2 e w3 t3 Hhx).
  - intros [= <- _ _]. exact (Hm w x w2 t2 Hmw).
Qed.

Lemma raises_try_except_from {A} (Q : exn -> Prop) (m : M W A) (sel : exn -> bool)
    (h : exn -> M W A) :
  raises_only Q m ->
  (forall e, Q e -> sel e = true -> raises_only P (h e)) ->
  (forall e, Q e -> sel e = false -> P e) ->
  raises_only P (try_except m sel h).
Proof.
  intros Hm Hh Hp w e w1 t. unfold try_except.
  destruct (m w) as [[[a|x|] w2] t2] eqn:Hmw; try discriminate.
  pose proof (Hm w x w2 t2 Hmw) as Hq.
  destruct (sel x) eqn:Hs.
  - destruct (h x w2) as [[r w3] t3] eqn:Hhx. intros [= -> _ _].
    exact (Hh x Hq Hs w2 e w3 t3 Hhx).
  - intros [= <- _ _]. exact (Hp x Hq Hs).
Qed.

Lemma raises_log (msg : Msg) (log_file : option string) :
  raises_only P (log msg log_file : M W unit).
Proof. intros w e w1 t. rewrite log_run. discriminate. Qed.

Lemma raises_log_each {A} (f : A -> Msg) (l : list A) (log_file : option string) :
  raises_only P (log_each f l log_file : M W unit).
Proof. intros w e w1 t. rewrite log_each_run. discriminate. Qed.
End RaisesFacts.

Create HintDb raises.
#[local] Hint Resolve raises_ret raises_out_of_fuel raises_emit raises_now
  raises_do_sleep raises_log raises_log_each : raises.
#[local] Hint Extern 1 (raises_only _ (bind _ _)) => apply raises_bind; [|intros] : raises.
#[local] Hint Extern 1 (raises_only _ (print _)) => apply raises_emit : raises.
#[local] Hint Extern 2 (raises_only _ (if ?b then _ else _)) => destruct b : raises.
#[local] Hint Extern 2 (raises_only _ (match ?o with Some _ => _ | None => _ end)) =>
  destruct o : raises.

Section ExitStatus.
Context {W : Type} `{Client W}.
Variable fromisoformat : string -> option datetime.
Variable fromtimestamp : Z -> option datetime.
Hypothesis Hord : ordinary_errors W.

Local Abbreviation ordinary := (fun e : exn => is_Exception e = true).

Lemma raises_list : raises_only ordinary (call EList machines_list : M W _).
Proof. apply raises_call. apply (ordinary_list Hord). Qed.

Lemma raises_get (i : string) :
  raises_only ordinary (call (EGet i) (machines_get i) : M W _).
Proof. apply raises_call. apply (ordinary_get Hord). Qed.

Lemma raises_wait_for_status (fuel : nat) (sysid expected : string) (timeout : Z) :
  raises_only ordinary (wait_for_status fuel sysid expected timeout : M W bool).
Proof.
  unfold wait_for_status. apply raises_bind; [apply raises_now|]. intros start.
  induction fuel as [|fuel IH]; cbn [wait_loop].
  - auto with raises.
  - apply raises_bind; [apply raises_now|]. intros t.
    destruct (t - start <? timeout); [|auto with raises].
    apply raises_bind; [apply raises_get|]. intros m.
    destruct (Str.eq_nocase (status_name m) expected); auto with raises.
Qed.

Lemma raises_query_machine (host : string) (log_file : option string) (quiet : bool) :
  raises_only ordinary (query_machine host log_file quiet : M W _).
Proof.
  unfold query_machine. apply raises_bind; [apply raises_list|]. intros ms.
  destruct (List.find _ ms) as [m|]; [|auto with raises].
  apply raises_bind; [apply raises_get|]. intros machine. auto 6 with raises.
Qed.

Lemma raises_deploy_machine (who : name_arg) (os log_file : option string) :
  raises_only ordinary (deploy_machine who os log_file : M W unit).
Proof.
  unfold deploy_machine. apply raises_try_except; [|auto with raises].
  apply raises_bind; [apply raises_list|]. intros ms.
  destruct (List.find _ ms) as [m|]; [|auto with raises].
  cbv zeta. destruct (String.eqb _ "deployed"); [auto with raises|].
  destruct (existsb _ non_deployable); [auto with raises|].
  apply raises_bind; [auto with raises|]. intros _.
  apply raises_bind; [|auto with raises].
  apply raises_call. apply (ordinary_deploy Hord).
Qed.

Lemma raises_redeploy_machine (fuel : nat) (host : string)
    (os_release log_file : option string) :
  raises_only ordinary (redeploy_machine fuel host os_release log_file : M W unit).
Proof.
  unfold redeploy_machine. apply raises_bind; [apply raises_query_machine|].
  intros [machine|]; [|auto with raises]. unfold redeploy_steps.
  apply raises_bind.
  - destruct (is_deployed machine); [|auto with raises].
    apply raises_bind.
    + unfold release_machine. destruct (is_deployed machine); [|auto with raises].
      apply raises_bind; [auto with raises|]. intros _.
      apply raises_call. apply (ordinary_release Hord).
    + intros _. apply raises_bind; [apply raises_wait_for_status|auto with raises].
  - intros _. apply raises_bind; [apply raises_deploy_machine|]. intros _.
    apply raises_bind; [apply raises_wait_for_status|auto with raises].
Qed.

Lemma raises_action (fuel : nat) (args : Args) (log_file : option string) :
  raises_only ordinary
    (match arg_action args with
     | ActList => bind (list_machines log_file) (fun _ => ret tt)
     | ActListDistros => list_distros log_file
     | ActQuery =>
         if opt_truthy (arg_machine args)
         then bind (query_machine (default "" (arg_machine args)) log_file false)
                (fun _ => ret tt)
         else print (MsgPleaseSpecify "query")
     | ActStatus =>
         if opt_truthy (arg_machine args)
         then bind (get_status (default "" (arg_machine args)) log_file)
                (fun _ => ret tt)
         else print (MsgPleaseSpecify "status")
     | ActDeploy =>
         if opt_truthy (arg_machine args)
         then deploy_machine (ByName (default "" (arg_machine args))) (arg_os args)
                log_file
         else print (MsgPleaseSpecify "deploy")
     | ActRedeploy =>
         if opt_truthy (arg_machine args)
         then redeploy_machine fuel (default "" (arg_machine args)) (arg_os args)
                log_file
         else print (MsgPleaseSpecify "redeploy")
     | ActRedeployAll => redeploy_all fuel (arg_os args) log_file
     | ActLastDeployed =>
         bind (find_last_deployed_machine fromisoformat fromtimestamp)
           (fun m =>
              match m with
              | Some m => log (MsgLastDeployed (hostname m) (system_id m)) log_file
              | None => log MsgNoDeployed log_file
              end)
     end : M W unit).
Proof.
  destruct (arg_action args).
  - apply raises_bind; [|auto with raises]. unfold list_machines.
    apply raises_bind; [apply raises_list|]. auto 8 with raises.
  - unfold list_distros. apply raises_bind; [|auto 8 with raises].
    apply raises_call. apply (ordinary_resources Hord).
  - destruct (opt_truthy _); [|auto with raises].
    apply raises_bind; [apply raises_query_machine|auto with raises].
  - destruct (opt_truthy _); [|auto with raises].
    apply raises_bind; [|auto with raises]. unfold get_status.
    apply raises_bind; [apply raises_query_machine|]. intros [m|]; auto with raises.
  - destruct (opt_truthy _); [apply raises_deploy_machine|auto with raises].
  - destruct (opt_truthy _); [apply raises_redeploy_machine|auto with raises].
  - unfold redeploy_all. apply raises_bind; [apply raises_list|]. intros ms.
    induction ms as [|m ms IH]; cbn [redeploy_each]; [auto with raises|].
    apply raises_bind; [apply raises_redeploy_machine|]. intros _. exact IH.
  - apply raises_bind; [|intros [m|]; auto with raises].
    unfold find_last_deployed_machine. apply raises_bind; [apply raises_list|].
    intros ms. destruct (select_last_deployed fromisoformat fromtimestamp ms) as [e|r] eqn:Hsel;
      [|auto with raises].
    apply raises_raise. unfold select_last_deployed in Hsel.
    destruct (with_timestamp _) as [|c cs]; [discriminate|].
    unfold list_sort_reverse in Hsel.
    destruct (all_comparable _); [|injection Hsel as <-; reflexivity].
    destruct (sort_desc (c :: cs)); [injection Hsel as <-; reflexivity|discriminate].
Qed.

Lemma raises_connect_loop (url key : string) (n : nat) :
  forall attempt retries : Z,
    raises_only ordinary (connect_loop n attempt retries url key : M W _).
Proof.
  induction n as [|n IH]; intros attempt retries; cbn [connect_loop];
    [auto with raises|].
  apply raises_bind.
  - unfold try_connect.
    apply (raises_try_except_from _ (fun e => is_Exception e = true)).
    + apply raises_bind; [|auto with raises]. apply raises_call.
      intros w e w1 Hc. exact (ordinary_connect Hord _ _ _ _ _ Hc).
    + intros e He _. destruct (connect_handler attempt e); [auto with raises|].
      apply raises_raise. exact He.
    + intros e He _. exact He.
  - intros [c|]; [auto with raises|].
    apply raises_bind; [unfold retry_pause; auto with raises|]. intros _. apply IH.
Qed.

Lemma raises_connect_maas (url key : string) (N : Z) :
  raises_only (fun e => is_Exception e = true \/ e = SystemExit 1)
    (connect_maas url key N : M W unit).
Proof.
  unfold connect_maas. apply raises_bind.
  - intros w e w1 t Hrun. left.
    exact (raises_connect_loop url key _ _ _ w e w1 t Hrun).
  - intros [c|]; [auto with raises|].
    repeat (apply raises_bind; [auto with raises|intros _]).
    apply raises_raise. right. reflexivity.
Qed.

End ExitStatus.

(** ** The script on the simulated service *)

Module Examples.
Import Sim.

Example iso_2024_06_01 :
  Iso.fromisoformat "2024-06-01T00:00:00" = Some (mkDatetime 1717200000 false).
Proof. reflexivity. Qed.

Example iso_with_offset :
  Iso.fromisoformat "2024-06-01T02:00:00+02:00" = Some (mkDatetime 1717200000 true).
Proof. reflexivity. Qed.

Example iso_rejects :
  Iso.fromisoformat "yesterday" = None /\ Iso.fromisoformat "2024-02-30" = None.
Proof. split; reflexivity. Qed.

(** A service that refuses every connection. *)
Definition refusing : World :=
  mkWorld 0 (Some (ClientConnectorError "Connection refused")) [] [] false.

Lemma connect_maas_exhausts_attempts_witness :
  1 <= 3
  /\ attempts_fail "http://maas:5240/MAAS" "k" (Z.to_nat 3) refusing
  /\ (exists w' t,
        connect_maas "http://maas:5240/MAAS" "k" 3 refusing
          = (Raise (SystemExit 1), w', t)
        /\ skeleton t
           = [EConnect "http://maas:5240/MAAS" "k"; ESleep 2;
              EConnect "http://maas:5240/MAAS" "k"; ESleep 2;
              EConnect "http://maas:5240/MAAS" "k"])
  /\ fst (fst (script Iso.fromisoformat Iso.fromtimestamp 0
                 "http://maas:5240/MAAS" "k" (mkArgs ActList None None None)
                 refusing))
     = Some 1.
Proof.
  assert (Hfail : attempts_fail "http://maas:5240/MAAS" "k" (Z.to_nat 3) refusing).
  { change (Z.to_nat 3) with 3%nat. cbn.
    repeat (do 2 eexists; refine (conj _ (conj eq_refl _)); [reflexivity|]).
    exact I. }
  split; [lia|]. split; [exact Hfail|].
  destruct (connect_maas_exhausts_attempts "http://maas:5240/MAAS" "k"
              Iso.fromisoformat Iso.fromtimestamp 3 refusing ltac:(lia) Hfail)
    as [(w' & t & Hrun & Hsk & _) Hexit].
  split; [exists w', t; split; [exact Hrun|exact Hsk]|].
  exact (Hexit eq_refl 0%nat (mkArgs ActList None None None)).
Defined.

Definition node (status : string) : Machine :=
  machine "node1" "abc" status (Has "jammy").

(** A machine that is being deployed: the next three fetches report
    "Deploying", "Deploying" and "deployed". *)
Definition deploying : World :=
  mkWorld 0 None [node "Deploying"] ["Deploying"; "Deploying"; "deployed"] false.

Ltac idle_step :=
  eapply idle_turn;
  [ reflexivity | cbn; lia | reflexivity | vm_compute; discriminate | cbn ].

Lemma wait_for_status_outcome_witness :
  (exists w',
      wait_for_status 3 "abc" "Deployed" 900 deploying
      = (Done true, w',
         [EGet "abc"; ESleep 10; EGet "abc"; ESleep 10; EGet "abc";
          EPrint (MsgReached "node1" "Deployed")]))
  /\ (exists w',
        wait_for_status 2 "abc" "Deployed" 20 deploying
        = (Done false, w',
           [EGet "abc"; ESleep 10; EGet "abc"; ESleep 10;
            EPrint (MsgWaitTimeout "abc" "Deployed")])).
Proof.
  split.
  - eassert (Hidle : idle_polls 0 900 "abc" "Deployed" 2 deploying _)
      by (idle_step; idle_step; apply idle_none).
    destruct (wait_for_status_outcome (H:=client) "abc" "Deployed" 900
                deploying deploying _ 0 2 eq_refl Hidle) as [Htrue _].
    eexists.
    erewrite Htrue;
      [ | reflexivity | cbn; lia | reflexivity | vm_compute; reflexivity | lia ].
    reflexivity.
  - eassert (Hidle : idle_polls 0 20 "abc" "Deployed" 2 deploying _)
      by (idle_step; idle_step; apply idle_none).
    destruct (wait_for_status_outcome (H:=client) "abc" "Deployed" 20
                deploying deploying _ 0 2 eq_refl Hidle) as [_ Hfalse].
    eexists.
    erewrite Hfalse; [ | reflexivity | cbn; lia | lia ].
    reflexivity.
Defined.

Lemma wait_for_status_no_time_witness :
  0 <= 0
  /\ wait_for_status 5 "abc" "Deployed" 0 deploying
     = (Done false, deploying, [EPrint (MsgWaitTimeout "abc" "Deployed")]).
Proof.
  split; [lia|].
  exact (proj1 (wait_for_status_no_time (H:=client) "abc" "Deployed" 0
                  deploying deploying deploying 0 0 5
                  ltac:(lia) eq_refl eq_refl ltac:(lia))).
Defined.

(** The listing of the specification: A and B deployed, C ready. *)
Definition mA : Machine :=
  machine_with "A" "a1" "Deployed" [("created", VStr "2023-01-01T00:00:00")].
Definition mB : Machine :=
  machine_with "B" "b2" "Deployed" [("created", VStr "2024-06-01T00:00:00")].
Definition mC : Machine :=
  machine_with "C" "c3" "Ready" [("created", VStr "2025-01-01T00:00:00")].

Ltac each_machine :=
  repeat match goal with
         | H : In _ (_ :: _) |- _ => destruct H as [<-|H]
         | H : In _ [] |- _ => destruct H
         end.


(** Two deployed machines, one with an offset-naive and one with an
    offset-aware timestamp: sorting the candidates raises [TypeError] and
    no machine is returned. *)
Definition mP : Machine :=
  machine_with "P" "p1" "Deployed" [("created", VStr "2024-06-01T00:00:00")].
Definition mQ : Machine :=
  machine_with "Q" "q2" "Deployed" [("created", VStr "2024-06-01T00:00:00+00:00")].


(** A value that does not read is passed over for the next attribute of
    the same machine. *)
Example extract_moves_to_next_attribute :
  extract_timestamp Iso.fromisoformat Iso.fromtimestamp
    (machine_with "Y" "y2" "Deployed"
       [("deployed_at", VStr "n/a"); ("last_updated", VOther true);
        ("updated_at", VStr ""); ("created_at", VNum 1717200000);
        ("created", VStr "2023-01-01T00:00:00")])
    timestamp_attrs
  = Some (mkDatetime 1717200000 false).
Proof. vm_compute. reflexivity. Qed.

(** Deployed machines whose timestamps do not read, after a ready one. *)
Definition mX : Machine := machine "X" "x1" "Ready" (Has "jammy").
Definition mY : Machine :=
  machine_with "Y" "y2" "DEPLOYED" [("created", VStr "n/a"); ("updated_at", VStr "")].
Definition mZ : Machine := machine "Z" "z3" "Deployed" (Has "jammy").

Lemma find_last_deployed_fallback_witness :
  find_last_deployed_machine Iso.fromisoformat Iso.fromtimestamp (up [mX; mY; mZ])
  = (Done (Some mY), up [mX; mY; mZ], [EList])
  /\ find_last_deployed_machine Iso.fromisoformat Iso.fromtimestamp (up [mX])
     = (Done None, up [mX], [EList]).
Proof.
  split.
  - refine (proj1 (find_last_deployed_fallback (H:=client)
                     Iso.fromisoformat Iso.fromtimestamp
                     (up [mX; mY; mZ]) (up [mX; mY; mZ]) [mX; mY; mZ] eq_refl _)
              [mX] mY [mZ] eq_refl _ _).
    + intros m Hin Hd. each_machine; vm_compute in Hd |- *; congruence.
    + vm_compute; reflexivity.
    + repeat constructor. vm_compute. discriminate.
  - refine (proj2 (find_last_deployed_fallback (H:=client)
                     Iso.fromisoformat Iso.fromtimestamp
                     (up [mX]) (up [mX]) [mX] eq_refl _) _).
    + intros m Hin Hd. each_machine; vm_compute in Hd |- *; congruence.
    + repeat constructor. vm_compute. discriminate.
Defined.

(** A redeploy request on a deployed machine; the service releases at once. *)
Lemma redeploy_deployed_releases_but_never_deploys_witness :
  (exists rest,
      trace_of (redeploy_machine 100 "node1" None None (up [node "Deployed"]))
      = query_trace (node "Deployed") (node "Deployed") None
          ++ [EPrint (MsgReleasing "node1"); ERelease "abc"] ++ rest)
  /\ List.filter is_deploy
       (trace_of (redeploy_machine 100 "node1" None None (up [node "Deployed"])))
     = [].
Proof.
  destruct (redeploy_deployed_releases_but_never_deploys (H:=client)
              100 "node1" None None
              (up [node "Deployed"]) (up [node "Deployed"]) (up [node "Deployed"])
              (up [node "Ready"]) [node "Deployed"] (node "Deployed") (node "Deployed")
              eq_refl eq_refl eq_refl eq_refl eq_refl)
    as (Hrel & _ & Hnone).
  split; [exact Hrel|exact Hnone].
Defined.

(** The same request when the release does not take: the wait for "Ready"
    runs into its timeout, the deploy step follows all the same and ends in
    the failed lookup; the only remote change asked for is the release. *)
Example redeploy_deployed_stuck_run :
  let w := mkWorld 0 None [node "Deployed"] [] true in
  let run := redeploy_machine 100 "node1" (Some "jammy") None w in
  result_of run = Done tt
  /\ List.filter is_release (trace_of run) = [ERelease "abc"]
  /\ List.filter is_deploy (trace_of run) = []
  /\ List.filter is_error_event (trace_of run)
     = [EPrint (MsgErrNotFound (ByObject (node "Deployed")))]
  /\ List.last (trace_of run) EList = EPrint (MsgRedeployed "node1" "jammy").
Proof. vm_compute. repeat split; reflexivity. Qed.





(** A deploy request on a machine that is deployed already. *)
Lemma deploy_machine_already_deployed_witness :
  deploy_machine (ByName "node1") (Some "jammy") (Some LOG_FILE_DEFAULT)
    (up [mX; node "DEPLOYED"])
  = (Done tt, up [mX; node "DEPLOYED"],
     [EList;
      EPrint (MsgInfoAlreadyDeployed (ByName "node1") (node "DEPLOYED"));
      EAppend LOG_FILE_DEFAULT
        (MsgInfoAlreadyDeployed (ByName "node1") (node "DEPLOYED"))]).
Proof.
  refine (proj1 (deploy_machine_already_deployed (H:=client)
                   "node1" (Some "jammy") (Some LOG_FILE_DEFAULT)
                   (up [mX; node "DEPLOYED"]) (up [mX; node "DEPLOYED"])
                   [mX] [] (node "DEPLOYED") eq_refl eq_refl _ eq_refl)).
  repeat constructor. discriminate.
Defined.

(** *** Further runs *)

Lemma connect_maas_returns_on_first_success_witness :
  exists t,
    connect_maas (H:=Flaky.client) "u" "k" 3 2%nat = (Done tt, 0%nat, t)
    /\ skeleton t = [EConnect "u" "k"; ESleep 2; EConnect "u" "k"; ESleep 2;
                     EConnect "u" "k"].
Proof.
  destruct (connect_maas_returns_on_first_success (H:=Flaky.client) "u" "k" 3 2 2%nat)
    as (w' & t & Hrun & Hsk & _).
  - change (Z.to_nat 3) with 3%nat. lia.
  - cbn. repeat (do 2 eexists; refine (conj _ (conj eq_refl _)); [reflexivity|]).
    eexists. reflexivity.
  - exists t. split; [|exact Hsk].
    assert (Hw : world_of (connect_maas (H:=Flaky.client) "u" "k" 3 2%nat) = 0%nat)
      by (vm_compute; reflexivity).
    rewrite Hrun in Hw. cbn in Hw. subst w'. exact Hrun.
Defined.

Definition broken_service : World :=
  mkWorld 0 (Some (OtherException "certificate verify failed")) [] [] false.

Lemma connect_maas_propagates_other_errors_witness :
  connect_maas "u" "k" 3 broken_service
  = (Raise (OtherException "certificate verify failed"), broken_service,
     [EConnect "u" "k"]).
Proof.
  exact (connect_maas_propagates_other_errors (H:=client) "u" "k" 3 _
           broken_service broken_service ltac:(lia) eq_refl eq_refl).
Defined.

Lemma connect_maas_without_attempts_witness :
  connect_maas "u" "k" 0 (up []) = (Raise (SystemExit 1), up [], give_up_messages).
Proof.
  exact (connect_maas_without_attempts (H:=client) "u" "k" 0 (up []) ltac:(lia)).
Defined.

Lemma join_slash_split_witness :
  split_slash "centos/stream9/amd64" = ["centos"; "stream9"; "amd64"].
Proof.
  refine (join_slash_split ["centos"; "stream9"; "amd64"] _ _).
  - discriminate.
  - repeat constructor.
Defined.

Lemma distro_of_slashed_name_witness :
  distro_of (mkResource 7 (Some "centos/stream9") (Some "ignored") None (Some "amd64"))
  = ("centos", "stream9").
Proof.
  refine (distro_of_slashed_name
            (mkResource 7 (Some "centos/stream9") (Some "ignored") None (Some "amd64"))
            "centos" "stream9" [] eq_refl eq_refl _ eq_refl).
  constructor.
Defined.

Lemma distro_of_plain_name_witness :
  distro_of (mkResource 7 (Some "custom") (Some "windows") (Some "2022") None)
  = ("windows", "-")
  /\ distro_of (mkResource 8 None None (Some "jammy") None) = ("-", "jammy").
Proof.
  split.
  - refine (proj1 (distro_of_plain_name
                     (mkResource 7 (Some "custom") (Some "windows") (Some "2022") None) _)
              "windows" eq_refl _).
    + right. exists "custom". split; reflexivity.
    + discriminate.
  - refine (proj1 (proj2 (distro_of_plain_name
                            (mkResource 8 None None (Some "jammy") None) _))
              eq_refl "jammy" eq_refl _).
    + left. reflexivity.
    + discriminate.
Defined.

Lemma list_machines_run_witness :
  list_machines None (up [mX; mZ])
  = (Done [mX; mZ], up [mX; mZ],
     [EList; EPrint MsgListHeader; EPrint MsgListRule;
      EPrint (MsgListRow mX); EPrint (MsgListRow mZ)]).
Proof.
  exact (proj1 (list_machines_run (H:=client) None (up [mX; mZ]) (up [mX; mZ]))
           [mX; mZ] eq_refl).
Defined.


Lemma query_machine_not_found_witness :
  query_machine "ghost" None true (up [mX; mZ])
  = (Done None, up [mX; mZ], [EList; EPrint (MsgQueryNotFound "ghost")]).
Proof.
  refine (proj1 (query_machine_not_found (H:=client) "ghost" None true
                   (up [mX; mZ]) (up [mX; mZ]) [mX; mZ] eq_refl _)).
  repeat constructor; discriminate.
Defined.

(** Two machines listed under one host name. *)
Definition twin1 : Machine := machine "twin" "t1" "Ready" (Has "jammy").
Definition twin2 : Machine := machine "twin" "t2" "Deployed" (Has "focal").

Lemma query_machine_fetches_first_witness :
  query_machine "twin" None true (up [mX; twin1; twin2])
  = (Done (Some twin1), up [mX; twin1; twin2], [EList; EGet "t1"]).
Proof.
  refine (proj1 (query_machine_fetches_first (H:=client) "twin" None true
                   (up [mX; twin1; twin2]) (up [mX; twin1; twin2])
                   (up [mX; twin1; twin2]) [mX] [twin2] twin1 eq_refl eq_refl _)
            twin1 eq_refl).
  repeat constructor; discriminate.
Defined.

Lemma get_status_run_witness :
  get_status "twin" None (up [mX; twin1; twin2])
  = (Done (Some "Ready"), up [mX; twin1; twin2],
     [EList; EGet "t1"; EPrint (MsgCurrentStatus "twin" "Ready")])
  /\ get_status "ghost" None (up [mX])
     = (Done None, up [mX], [EList; EPrint (MsgQueryNotFound "ghost")]).
Proof.
  split.
  - refine (proj1 (get_status_run (H:=client) "twin" None
                     (up [mX; twin1; twin2]) (up [mX; twin1; twin2])
                     [mX; twin1; twin2] eq_refl)
              [mX] twin1 [twin2] twin1 _ eq_refl eq_refl _ eq_refl).
    repeat constructor; discriminate.
  - refine (proj2 (get_status_run (H:=client) "ghost" None
                     (up [mX]) (up [mX]) [mX] eq_refl) _).
    repeat constructor; discriminate.
Defined.

Lemma find_last_deployed_sound_witness :
  In mB [mA; mB; mC] /\ Str.lower (status_name mB) = "deployed".
Proof.
  refine (proj1 (find_last_deployed_sound (H:=client) Iso.fromisoformat
                   Iso.fromtimestamp (up [mA; mB; mC]) (up [mA; mB; mC])
                   [mA; mB; mC] eq_refl) mB _).
  vm_compute. reflexivity.
Defined.

Lemma find_last_deployed_raises_iff_mixed_witness :
  exists m1 m2 t1 t2,
    In m1 [mP; mQ] /\ In m2 [mP; mQ]
    /\ Str.lower (status_name m1) = "deployed"
    /\ Str.lower (status_name m2) = "deployed"
    /\ extract_timestamp Iso.fromisoformat Iso.fromtimestamp m1 timestamp_attrs = Some t1
    /\ extract_timestamp Iso.fromisoformat Iso.fromtimestamp m2 timestamp_attrs = Some t2
    /\ aware t1 <> aware t2.
Proof.
  refine (proj1 (proj1 (find_last_deployed_raises_iff_mixed (H:=client)
                          Iso.fromisoformat Iso.fromtimestamp
                          (up [mP; mQ]) (up [mP; mQ]) [mP; mQ] eq_refl)) _).
  exists TypeError. vm_compute. reflexivity.
Defined.

Lemma find_last_deployed_ignores_others_witness :
  result_of (find_last_deployed_machine Iso.fromisoformat Iso.fromtimestamp
               (up [mA; mB]))
  = result_of (find_last_deployed_machine Iso.fromisoformat Iso.fromtimestamp
                 (up [mA; mB; mC])).
Proof.
  exact (find_last_deployed_ignores_others (H:=client) Iso.fromisoformat
           Iso.fromtimestamp (up [mA; mB; mC]) (up [mA; mB; mC])
           (up [mA; mB]) (up [mA; mB]) [mA; mB; mC] eq_refl eq_refl).
Defined.

Lemma release_machine_guard_witness :
  release_machine twin1 (up [twin1; twin2]) = (Done tt, up [twin1; twin2], [])
  /\ release_machine twin2 (up [twin1; twin2])
     = (Done tt, up [twin1; with_status "Ready" twin2],
        [EPrint (MsgReleasing "twin"); ERelease "t2"]).
Proof.
  split.
  - refine (proj1 (release_machine_guard (H:=client) twin1 (up [twin1; twin2])) _).
    vm_compute. discriminate.
  - exact (proj2 (release_machine_guard (H:=client) twin2 (up [twin1; twin2]))
             eq_refl (inr tt) _ eq_refl).
Defined.

Lemma wait_for_status_fetch_error_witness :
  wait_for_status 3 "gone" "Ready" 900 (up [mX])
  = (Raise (OtherException "No Machine matches the given query."), up [mX],
     [EGet "gone"]).
Proof.
  refine (wait_for_status_fetch_error (H:=client) "gone" "Ready" 900
            (up [mX]) (up [mX]) (up [mX]) (up [mX]) (up [mX]) 0 0 0 _ 3
            eq_refl _ eq_refl _ eq_refl _).
  - apply idle_none.
  - lia.
  - lia.
Defined.

Lemma sim_steady_clock : steady_clock (H:=client) clock.
Proof.
  constructor.
  - intros w t w1 [= <- <-]. split; [reflexivity|lia].
  - intros i w r w1. cbn. unfold sim_get.
    destruct (List.find _ (machines w)); [destruct (polls w)|];
      intros [= _ <-]; cbn; lia.
  - intros d w. cbn. lia.
Qed.

Lemma wait_for_status_bounded_witness :
  result_of (wait_for_status 90 "abc" "Deployed" 900 (up [node "Failed"])) <> OutOfFuel
  /\ (fetches (wait_for_status 90 "abc" "Deployed" 900 (up [node "Failed"])) <= 90)%nat.
Proof.
  refine (wait_for_status_bounded (H:=client) clock "abc" "Deployed" 900 90
            (up [node "Failed"]) sim_steady_clock _).
  change (Z.to_nat ((900 + 9) / 10)) with 90%nat. lia.
Defined.

Lemma node_ready_deployable : deployable (node "Ready").
Proof. split; vm_compute; intuition discriminate. Qed.

Lemma deploy_machine_deploys_witness :
  deploy_machine (ByName "node1") (Some "noble") None (up [mX; node "Ready"])
  = (Done tt, up [mX; node "Deployed"],
     [EList; EPrint (MsgActionDeploying (ByName "node1") (Some "noble") "abc");
      EDeploy "abc" (Some "noble");
      EPrint (MsgDeployTriggered (ByName "node1") (Some "noble"))]).
Proof.
  refine (proj1 (deploy_machine_deploys (H:=client) "node1" (Some "noble") None
                   (up [mX; node "Ready"]) (up [mX; node "Ready"])
                   (up [mX; node "Deployed"]) [mX] [] (node "Ready")
                   eq_refl eq_refl _ node_ready_deployable) eq_refl).
  repeat constructor. discriminate.
Defined.

Lemma deploy_machine_deploys_only_deployable_witness :
  (length (List.filter is_deploy
             (trace_of (deploy_machine (ByName "node1") None None
                          (up [mX; node "Ready"])))) <= 1)%nat.
Proof.
  exact (proj1 (deploy_machine_deploys_only_deployable (H:=client)
                  (ByName "node1") None None (up [mX; node "Ready"])
                  (up [mX; node "Ready"]) [mX; node "Ready"] eq_refl)).
Defined.

Lemma deploy_machine_refuses_witness :
  deploy_machine (ByName "ghost") None None (up [mX])
  = (Done tt, up [mX], [EList; EPrint (MsgErrNotFound (ByName "ghost"))])
  /\ deploy_machine (ByName "node1") None None (up [mX; node "BROKEN"])
     = (Done tt, up [mX; node "BROKEN"],
        [EList; EPrint (MsgErrNonDeployable (ByName "node1") "BROKEN")]).
Proof.
  split.
  - refine (proj1 (deploy_machine_refuses (H:=client) "ghost" None None
                     (up [mX]) (up [mX]) [mX] eq_refl) _).
    repeat constructor. discriminate.
  - refine (proj2 (deploy_machine_refuses (H:=client) "node1" None None
                     (up [mX; node "BROKEN"]) (up [mX; node "BROKEN"])
                     [mX; node "BROKEN"] eq_refl)
              [mX] (node "BROKEN") [] eq_refl eq_refl _ _).
    + repeat constructor. discriminate.
    + vm_compute. tauto.
Defined.

Lemma redeploy_machine_unknown_host_witness :
  redeploy_machine 10 "ghost" None (Some "log") (up [mX])
  = (Done tt, up [mX],
     [EList; EPrint (MsgQueryNotFound "ghost"); EAppend "log" (MsgQueryNotFound "ghost")]).
Proof.
  refine (redeploy_machine_unknown_host (H:=client) 10 "ghost" None (Some "log")
            (up [mX]) (up [mX]) [mX] eq_refl _).
  repeat constructor. discriminate.
Defined.


Lemma main_without_machine_witness :
  script Iso.fromisoformat Iso.fromtimestamp 10 "u" "k"
    (mkArgs ActRedeploy None (Some "noble") None) (up [mX])
  = (Some 0, up [mX], [EConnect "u" "k"; EPrint (MsgPleaseSpecify "redeploy")])
  /\ script Iso.fromisoformat Iso.fromtimestamp 10 "u" "k"
       (mkArgs ActDeploy (Some "") None None) (up [mX])
     = (Some 0, up [mX], [EConnect "u" "k"; EPrint (MsgPleaseSpecify "deploy")]).
Proof.
  split.
  - exact (proj2 (main_without_machine (H:=client) Iso.fromisoformat Iso.fromtimestamp
                    "u" "k" 10 (mkArgs ActRedeploy None (Some "noble") None) "redeploy"
                    (up [mX]) (up [mX]) eq_refl eq_refl eq_refl)).
  - exact (proj2 (main_without_machine (H:=client) Iso.fromisoformat Iso.fromtimestamp
                    "u" "k" 10 (mkArgs ActDeploy (Some "") None None) "deploy"
                    (up [mX]) (up [mX]) eq_refl eq_refl eq_refl)).
Defined.

Lemma main_unreachable_service_does_nothing_witness :
  exists w' t,
    main Iso.fromisoformat Iso.fromtimestamp 10 "u" "k"
      (mkArgs ActRedeployAll None None None) refusing
    = (Raise (SystemExit 1), w', t)
    /\ List.filter is_service_call t = [].
Proof.
  refine (main_unreachable_service_does_nothing (H:=client) Iso.fromisoformat
            Iso.fromtimestamp "u" "k" 10 (mkArgs ActRedeployAll None None None)
            refusing _).
  cbn. repeat (do 2 eexists; refine (conj _ (conj eq_refl _)); [reflexivity|]).
  exact I.
Defined.

Lemma sim_always_up_ordinary : ordinary_errors World (H:=sim_always_up).
Proof.
  constructor; cbn.
  - intros w e w1. discriminate.
  - intros i w e w1. unfold sim_get.
    destruct (List.find _ (machines w)); [destruct (polls w); discriminate|].
    intros [= <- _]. reflexivity.
  - intros m w e w1. discriminate.
  - intros m os w e w1. discriminate.
  - intros w e w1. discriminate.
  - intros url key w e w1. discriminate.
Qed.


End Examples.
